(** * Expense tracker: a model of [app.py] and its specification

    The development follows the single source file of the application:
    the three tables of [init_db], the helpers, and one definition per
    route handler.  A handler is a computation over a [world] made of the
    database and the client session; it either returns a response
    together with the new world or raises.

    Conventions.
    - REAL values are exact rationals ([Qc]): finite, and added without
      rounding.  Where a statement turns on the rounding of binary64
      additions, the two loops of the dashboard are taken up again over
      an arbitrary addition ([sum_with], [group_with]) and run on
      binary64.  A text that [float] reads as nan or an infinity has no
      number here ([py_float_special]).
    - A text is the sequence of the bytes of its UTF-8 encoding; where
      the source counts characters ([first7]) the bytes of one code point
      are kept together.
    - The integers of a URL and of a JSON body are unbounded, as in
      Python; SQLite binds an integer below 2^63 ([url_id],
      [sqlite_bindable]), and the handlers are followed for such
      integers.
    - A request that raises is taken to leave nothing behind: its
      uncommitted statements are rolled back and its connection is closed
      before the next request.  (CPython closes a connection that was not
      closed by the handler when its collector finds it.)
    - The clock is read in whole seconds, the resolution of [now_str].
      [datetime.now()] has sub-second digits, but it is only ever compared
      with a whole-second bound, see [subsecond_irrelevant].
    - Functions of the Python runtime, of werkzeug and of SQLite that the
      source calls but does not define are the fields of [Runtime]. *)

From Stdlib Require Import ZArith QArith Qcanon Ascii String.
From stdpp Require Import base option numbers list strings gmap fin_maps.
From Stdlib Require Import Lqa PrimFloat.
From stdpp Require Import sorting.

Local Open Scope Z_scope.

(** ** Values *)

(** A Python value as it is bound to a SQL parameter or read back from a
    cell: [None]/NULL, a number, or text. *)
Inductive pyval :=
| PyNone
| PyNum (q : Qc)
| PyStr (s : string).

Global Instance pyval_eq_dec : EqDecision pyval.
Proof. solve_decision. Defined.

(** What the source takes from its environment. *)
Class Runtime := {
  (** [float(s)] on a [str]: [None] stands for the raised [ValueError]. *)
  py_float : string → option Qc;
  (** Whether [float(s)] is nan or an infinity (as for "nan", "inf",
      "1e400").  [py_float] has no number to give for such a text; a
      statement that follows the number read from a text assumes the text
      is not one of these. *)
  py_float_special : string → bool;
  (** SQLite's reading of a text as a numeric literal, used by the
      affinity of a column declared REAL. *)
  sqlite_numeric : string → option Qc;
  (** SQLite's [strftime('%Y-%m', d)]; [None] is NULL, for a [d] that is
      not a time value. *)
  sqlite_strftime_Ym : string → option string;
  (** [datetime.strftime("%Y-%m")] of a clock reading. *)
  datetime_strftime_Ym : Z → string;
  (** werkzeug's [generate_password_hash], with the salt it draws made an
      argument, and [check_password_hash]. *)
  generate_password_hash : string → string → string;
  check_password_hash : string → string → bool
}.

(** ** Settings *)

Definition MAX_LOGIN_ATTEMPTS : Z := 3.
Definition LOCK_MINUTES : Z := 5.

(** [timedelta(minutes=m)] in seconds. *)
Definition timedelta_minutes (m : Z) : Z := m * 60.

(** ** Tables (init_db) *)

(** [users]: [attempts INTEGER DEFAULT 0], [lock_time TEXT] holding the
    output of [now_str] or NULL. *)
Record user_row := UserRow {
  user_id : Z;
  username : string;
  password : string;
  attempts : Z;
  lock_time : option Z
}.

Record expense_row := ExpenseRow {
  expense_id : Z;
  expense_user : string;
  amount : pyval;
  category : string;
  date : string
}.

Record budget_row := BudgetRow {
  budget_id : Z;
  budget_user : string;
  month : string;
  budget_amount : pyval
}.

Global Instance user_row_eq_dec : EqDecision user_row.
Proof. solve_decision. Defined.
Global Instance expense_row_eq_dec : EqDecision expense_row.
Proof. solve_decision. Defined.
Global Instance budget_row_eq_dec : EqDecision budget_row.
Proof. solve_decision. Defined.

(** Rows are kept in rowid order, the order in which a SELECT without
    ORDER BY returns them.  The [seq_] fields are the AUTOINCREMENT
    counters of [sqlite_sequence]. *)
Record database := Database {
  users : list user_row;
  expenses : list expense_row;
  budgets : list budget_row;
  seq_users : Z;
  seq_expenses : Z;
  seq_budgets : Z
}.

(** ** Session, requests, responses *)

(** The messages passed to [flash], by the text of the source:
    "Invalid Username/Password", "Account Locked. Try Later.",
    "Welcome " + u, "Account Locked!", "Wrong Password",
    "Account Created", "Username Exists", "Expense Added",
    "Expense Updated". *)
Inductive flash_message :=
| InvalidUsernamePassword
| AccountLockedTryLater
| Welcome (u : string)
| AccountLocked
| WrongPassword
| AccountCreated
| UsernameExists
| ExpenseAdded
| ExpenseUpdated.

(** Flask's [session]: the key ["user"] and the queue of flashed
    messages. *)
Record session := Session {
  session_user : option string;
  flashes : list flash_message
}.

Record world := World {
  db : database;
  sess : session
}.

Inductive http_method := GET | POST.

(** The body read by [request.get_json()], with the two keys the
    handlers index. *)
Record json_body := JsonBody {
  json_month : option string;
  json_amount : option pyval
}.

Record request := Request {
  method : http_method;
  form : gmap string string;
  args : gmap string string;
  json : json_body
}.

(** Keyword arguments of [render_template("dashboard.html", ...)]. *)
Record dashboard_context := DashboardContext {
  ctx_expenses : list expense_row;
  ctx_total : Qc;
  ctx_category_amounts : gmap string Qc;
  ctx_monthly_totals : gmap string Qc;
  ctx_budget : pyval;
  ctx_budget_alert : bool;
  ctx_selected_month : option string;
  ctx_username : string
}.

(** What [export_pdf] draws: the title after "Expense Report - ", one line
    per row (date, category, amount cell) and the total.  Page geometry
    is not modelled. *)
Record pdf_report := PdfReport {
  pdf_title : string;
  pdf_lines : list (string * string * pyval);
  pdf_total : Qc
}.

Inductive response :=
| redirect (location : string)
| render_template (name : string)
| render_edit_expense (expense : option expense_row)
| render_dashboard (ctx : dashboard_context)
| jsonify_status_ok
| jsonify_done
| send_file (report : pdf_report).

(** ** Exceptions and the handler monad *)

Inductive exn :=
| KeyError (key : string)
| BadRequestKeyError (key : string)
| AttributeError
| TypeError.

Inductive result (A : Type) :=
| Return (a : A)
| Raise (e : exn).
Global Arguments Return {A} a.
Global Arguments Raise {A} e.

(** A handler either returns with a new world or raises.  Every raise in
    the source happens before the [commit] and before any session write
    of its handler, so a raising request leaves the world as it was. *)
Definition M (A : Type) : Type := world → result (A * world).

Global Instance M_ret : MRet M := λ A a w, Return (a, w).
Global Instance M_bind : MBind M := λ A B f m w,
  match m w with
  | Return (a, w') => f a w'
  | Raise e => Raise e
  end.

Definition raise {A} (e : exn) : M A := λ _, Raise e.
Definition get_db : M database := λ w, Return (db w, w).
Definition get_session : M session := λ w, Return (sess w, w).

(** [cur.execute(...); conn.commit()] for a statement that writes. *)
Definition execute (stmt : database → database) : M unit :=
  λ w, Return ((), World (stmt (db w)) (sess w)).

Definition flash (msg : flash_message) : M unit :=
  λ w, Return ((), World (db w)
                     (Session (session_user (sess w)) (flashes (sess w) ++ [msg]))).

(** [session["user"] = u] *)
Definition session_set_user (u : string) : M unit :=
  λ w, Return ((), World (db w) (Session (Some u) (flashes (sess w)))).

(** [session["user"]] *)
Definition session_get_user : M string :=
  λ w, match session_user (sess w) with
       | Some u => Return (u, w)
       | None => Raise (KeyError "user")
       end.

(** [session.clear()] *)
Definition session_clear : M unit :=
  λ w, Return ((), World (db w) (Session None [])).

(** [request.form[k]] *)
Definition form_get (req : request) (k : string) : M string :=
  match form req !! k with
  | Some v => mret v
  | None => raise (BadRequestKeyError k)
  end.

(** [data[k]] on the JSON body *)
Definition json_get {A} (field : option A) (k : string) : M A :=
  match field with
  | Some v => mret v
  | None => raise (KeyError k)
  end.

(** Truth value of a string: [if month:] *)
Definition str_truthy (s : string) : bool := negb (bool_decide (s = "")).

(** Truth value of an optional string, as [request.args.get] returns it. *)
Definition truthy_arg (o : option string) : option string :=
  match o with
  | Some s => if str_truthy s then Some s else None
  | None => None
  end.

Section Handlers.
Context `{Runtime}.

(** ** Helpers *)

(** [parse_float_safe]: [float(x)], and [0.0] when it raises; [float] of
    a number is that number, [float(None)] raises [TypeError]. *)
Definition parse_float_safe (x : pyval) : Qc :=
  match x with
  | PyNum q => q
  | PyStr s => default 0%Qc (py_float s)
  | PyNone => 0%Qc
  end.

(** [now_str]: the clock formatted to the second; the stored text is
    represented by the reading it denotes. *)
Definition now_str (now : Z) : Z := now.

(** ** SQL statements *)

(** Storage of a value in a column declared REAL: a text that SQLite
    reads as a number is kept as that number, any other text stays
    text. *)
Definition real_affinity (v : pyval) : pyval :=
  match v with
  | PyStr s => match sqlite_numeric s with
               | Some q => PyNum q
               | None => PyStr s
               end
  | _ => v
  end.

Definition with_users (us : list user_row) (seq : Z) (d : database) : database :=
  Database us (expenses d) (budgets d) seq (seq_expenses d) (seq_budgets d).
Definition with_expenses (es : list expense_row) (seq : Z) (d : database) : database :=
  Database (users d) es (budgets d) (seq_users d) seq (seq_budgets d).
Definition with_budgets (bs : list budget_row) (seq : Z) (d : database) : database :=
  Database (users d) (expenses d) bs (seq_users d) (seq_expenses d) seq.

(** [SELECT * FROM users WHERE username=?] then [fetchone()] *)
Definition select_user (u : string) (d : database) : option user_row :=
  List.find (λ r, bool_decide (username r = u)) (users d).

(** [UPDATE users SET attempts=0, lock_time=NULL WHERE username=?] *)
Definition update_user_reset (u : string) (d : database) : database :=
  with_users
    (map (λ r, if bool_decide (username r = u)
               then UserRow (user_id r) (username r) (password r) 0 None
               else r) (users d))
    (seq_users d) d.

(** [UPDATE users SET attempts=?, lock_time=? WHERE username=?] *)
Definition update_user_lock (a : Z) (lock : Z) (u : string) (d : database) : database :=
  with_users
    (map (λ r, if bool_decide (username r = u)
               then UserRow (user_id r) (username r) (password r) a (Some lock)
               else r) (users d))
    (seq_users d) d.

(** [UPDATE users SET attempts=? WHERE username=?] *)
Definition update_user_attempts (a : Z) (u : string) (d : database) : database :=
  with_users
    (map (λ r, if bool_decide (username r = u)
               then UserRow (user_id r) (username r) (password r) a (lock_time r)
               else r) (users d))
    (seq_users d) d.

(** [INSERT INTO users(username,password) VALUES(?,?)], when the UNIQUE
    constraint on [username] allows it. *)
Definition insert_user (u hashp : string) (d : database) : database :=
  with_users (users d ++ [UserRow (seq_users d + 1) u hashp 0 None])
             (seq_users d + 1) d.

(** The WHERE clause [user=?], with [AND strftime('%Y-%m',date)=?] when a
    month is given.  A NULL [strftime] equals nothing. *)
Definition expense_matches (user : string) (mon : option string) (e : expense_row) : bool :=
  bool_decide (expense_user e = user) &&
  match mon with
  | Some m => bool_decide (sqlite_strftime_Ym (date e) = Some m)
  | None => true
  end.

(** [SELECT * FROM expenses WHERE user=? ...] then [fetchall()] *)
Definition select_expenses (user : string) (mon : option string) (d : database)
  : list expense_row :=
  List.filter (expense_matches user mon) (expenses d).

(** The WHERE clause [id=? AND user=?] *)
Definition expense_is (id : Z) (user : string) (e : expense_row) : bool :=
  bool_decide (expense_id e = id) && bool_decide (expense_user e = user).

(** [INSERT INTO expenses VALUES(NULL,?,?,?,?)] *)
Definition insert_expense (user : string) (amt : pyval) (cat dt : string)
    (d : database) : database :=
  with_expenses
    (expenses d ++ [ExpenseRow (seq_expenses d + 1) user (real_affinity amt) cat dt])
    (seq_expenses d + 1) d.

(** [DELETE FROM expenses WHERE id=? AND user=?] *)
Definition delete_expense (id : Z) (user : string) (d : database) : database :=
  with_expenses (List.filter (λ e, negb (expense_is id user e)) (expenses d))
                (seq_expenses d) d.

(** [UPDATE expenses SET amount=?, category=?, date=? WHERE id=? AND user=?] *)
Definition update_expense (amt : pyval) (cat dt : string) (id : Z) (user : string)
    (d : database) : database :=
  with_expenses
    (map (λ e, if expense_is id user e
               then ExpenseRow (expense_id e) (expense_user e) (real_affinity amt) cat dt
               else e) (expenses d))
    (seq_expenses d) d.

(** [DELETE FROM expenses WHERE user=? AND strftime('%Y-%m',date)=?] and
    [DELETE FROM expenses WHERE user=?] *)
Definition delete_expenses (user : string) (mon : option string) (d : database)
  : database :=
  with_expenses (List.filter (λ e, negb (expense_matches user mon e)) (expenses d))
                (seq_expenses d) d.

(** The WHERE clause [user=? AND month=?] on [budgets] *)
Definition budget_is (user mon : string) (b : budget_row) : bool :=
  bool_decide (budget_user b = user) && bool_decide (month b = mon).

(** [SELECT amount FROM budgets WHERE user=? AND month=?] then [fetchone()] *)
Definition select_budget (user mon : string) (d : database) : option budget_row :=
  List.find (budget_is user mon) (budgets d).

(** [DELETE FROM budgets WHERE user=? AND month=?] *)
Definition delete_budget (user mon : string) (d : database) : database :=
  with_budgets (List.filter (λ b, negb (budget_is user mon b)) (budgets d))
               (seq_budgets d) d.

(** [INSERT INTO budgets VALUES(NULL,?,?,?)] *)
Definition insert_budget (user mon : string) (amt : pyval) (d : database) : database :=
  with_budgets
    (budgets d ++ [BudgetRow (seq_budgets d + 1) user mon (real_affinity amt)])
    (seq_budgets d + 1) d.

(** ** Login *)

(** The test of lines 86-88: a lock is stored and
    [now < lock + timedelta(minutes=LOCK_MINUTES)]. *)
Definition lock_active (now : Z) (user : user_row) : bool :=
  match lock_time user with
  | Some lock => bool_decide (now < lock + timedelta_minutes LOCK_MINUTES)
  | None => false
  end.

(** [login].  [now] is the reading of [datetime.now()] in the lock test,
    [now'] the later reading inside [now_str()]. *)
Definition login (now now' : Z) (req : request) : M response :=
  match method req with
  | POST =>
      let u := form req !! "username" in
      let p := form req !! "password" in
      d ← get_db;
      match u ≫= (λ u, (λ user, (u, user)) <$> select_user u d) with
      | None =>
          flash InvalidUsernamePassword;;
          mret (redirect "/")
      | Some (u, user) =>
          if lock_active now user then
            flash AccountLockedTryLater;;
            mret (redirect "/")
          else
            match p with
            | None => raise AttributeError
            | Some p =>
                if check_password_hash (password user) p then
                  execute (update_user_reset u);;
                  session_set_user u;;
                  flash (Welcome u);;
                  mret (redirect "/dashboard")
                else
                  let attempts := attempts user + 1 in
                  (if bool_decide (MAX_LOGIN_ATTEMPTS ≤ attempts) then
                     execute (update_user_lock attempts (now_str now') u);;
                     flash AccountLocked
                   else
                     execute (update_user_attempts attempts u);;
                     flash WrongPassword);;
                  mret (redirect "/")
            end
      end
  | GET => mret (render_template "login.html")
  end.

(** ** Signup *)

(** [signup].  The INSERT raises on a taken name, and the bare [except]
    turns that into the flashed message.  The [except] would do the same
    for any other failure of the INSERT; the store of this model refuses
    an INSERT for the UNIQUE constraint only. *)
Definition signup (salt : string) (req : request) : M response :=
  match method req with
  | POST =>
      u ← form_get req "username";
      p ← form_get req "password";
      let hashp := generate_password_hash salt p in
      d ← get_db;
      match select_user u d with
      | None =>
          execute (insert_user u hashp);;
          flash AccountCreated;;
          mret (redirect "/")
      | Some _ =>
          flash UsernameExists;;
          mret (render_template "signup.html")
      end
  | GET => mret (render_template "signup.html")
  end.

(** ** Logout *)

Definition logout : M response :=
  session_clear;;
  mret (redirect "/").

(** ** Dashboard *)

(** [sum(parse_float_safe(e["amount"]) for e in expenses)] *)
Definition total_of (es : list expense_row) : Qc :=
  foldl (λ acc e, acc + parse_float_safe (amount e))%Qc 0%Qc es.

(** [d[k] += v] on a [defaultdict(float)] *)
Definition defaultdict_add (d : gmap string Qc) (k : string) (v : Qc) : gmap string Qc :=
  <[k := (default 0%Qc (d !! k) + v)%Qc]> d.

(** The loop of lines 159-161. *)
Definition category_totals (es : list expense_row) : gmap string Qc :=
  foldl (λ cat e, defaultdict_add cat (category e) (parse_float_safe (amount e)))
        ∅ es.

(** A byte 10xxxxxx, which continues a code point in UTF-8. *)
Definition continuation_byte (c : ascii) : bool :=
  bool_decide (128 ≤ nat_of_ascii c < 192)%nat.

(** [s[:n]]: the first [n] characters, each with all its bytes. *)
Fixpoint take_chars (n : nat) (s : string) : string :=
  match s with
  | EmptyString => EmptyString
  | String c s' =>
      if continuation_byte c then String c (take_chars n s')
      else match n with
           | O => EmptyString
           | S n' => String c (take_chars n' s')
           end
  end.

(** [len(s)]: the number of characters. *)
Fixpoint char_count (s : string) : nat :=
  match s with
  | EmptyString => O
  | String c s' =>
      if continuation_byte c then char_count s' else S (char_count s')
  end.

(** [s[:7]] *)
Definition first7 (s : string) : string := take_chars 7 s.

(** The loop of lines 165-167. *)
Definition monthly_totals (all_data : list expense_row) : gmap string Qc :=
  foldl (λ month_tot r,
           defaultdict_add month_tot (first7 (date r)) (parse_float_safe (amount r)))
        ∅ all_data.

(** Truth value of a Python value: [None], zero and the empty text are
    false. *)
Definition py_truthy (v : pyval) : bool :=
  match v with
  | PyNone => false
  | PyNum q => negb (bool_decide (q = 0%Qc))
  | PyStr s => str_truthy s
  end.

(** [bool(budget and total >= budget)].  The comparison is evaluated only
    for a true [budget]; a number against a text raises. *)
Definition budget_alert (budget : pyval) (total : Qc) : M bool :=
  if py_truthy budget then
    match budget with
    | PyNum b => mret (bool_decide (b ≤ total)%Qc)
    | _ => raise TypeError
    end
  else mret false.

(** [dashboard], with [now] the reading of [datetime.now()]. *)
Definition dashboard (now : Z) (req : request) : M response :=
  s ← get_session;
  match session_user s with
  | None => mret (redirect "/")
  | Some user =>
      let mon_arg := args req !! "month" in
      d ← get_db;
      let expenses := select_expenses user (truthy_arg mon_arg) d in
      let total := total_of expenses in
      let cat := category_totals expenses in
      let all_data := select_expenses user None d in
      let month_tot := monthly_totals all_data in
      let mon := default (datetime_strftime_Ym now) (truthy_arg mon_arg) in
      let row := select_budget user mon d in
      let budget := from_option budget_amount PyNone row in
      alert ← budget_alert budget total;
      mret (render_dashboard
              (DashboardContext expenses total cat month_tot budget alert mon_arg user))
  end.

(** ** Add *)

Definition add (req : request) : M response :=
  s ← get_session;
  match session_user s with
  | None => mret (redirect "/")
  | Some user =>
      match method req with
      | POST =>
          raw ← form_get req "amount";
          let amt := parse_float_safe (PyStr raw) in
          cat ← form_get req "category";
          dt ← form_get req "date";
          execute (insert_expense user (PyNum amt) cat dt);;
          flash ExpenseAdded;;
          mret (redirect "/dashboard")
      | GET => mret (render_template "add_expense.html")
      end
  end.

(** ** Delete *)

(** [delete] has no session test: [session["user"]] is evaluated while
    the parameters of the statement are built.  The statement is run as
    SQLite runs it for an id it can bind ([url_id]). *)
Definition delete (id : Z) : M response :=
  user ← session_get_user;
  execute (delete_expense id user);;
  mret (redirect "/dashboard").

(** ** Edit *)

(** [request.form.get("custom_category") or request.form["category"]] *)
Definition edit_category (req : request) : M string :=
  match truthy_arg (form req !! "custom_category") with
  | Some c => mret c
  | None => form_get req "category"
  end.

(** [edit].  Its statements are run as SQLite runs them for an id it
    can bind ([url_id]). *)
Definition edit (id : Z) (req : request) : M response :=
  s ← get_session;
  match session_user s with
  | None => mret (redirect "/")
  | Some user =>
      match method req with
      | POST =>
          amt ← form_get req "amount";
          cat ← edit_category req;
          dt ← form_get req "date";
          execute (update_expense (PyStr amt) cat dt id user);;
          flash ExpenseUpdated;;
          mret (redirect "/dashboard")
      | GET =>
          d ← get_db;
          mret (render_edit_expense (List.find (expense_is id user) (expenses d)))
      end
  end.

(** ** Set budget, clear month, clear all *)

(** [set_budget].  The body carries a month text and an amount, or
    lacks a key; a raise between the DELETE and the [commit] leaves the
    DELETE uncommitted. *)
Definition set_budget (req : request) : M response :=
  let data := json req in
  user ← session_get_user;
  mon ← json_get (json_month data) "month";
  execute (delete_budget user mon);;
  amt ← json_get (json_amount data) "amount";
  execute (insert_budget user mon amt);;
  mret jsonify_status_ok.

Definition clear_month (req : request) : M response :=
  let data := json req in
  user ← session_get_user;
  mon ← json_get (json_month data) "month";
  execute (delete_expenses user (Some mon));;
  mret jsonify_status_ok.

Definition clear_all : M response :=
  user ← session_get_user;
  execute (delete_expenses user None);;
  mret jsonify_done.

(** ** PDF export *)

Definition export_pdf (req : request) : M response :=
  s ← get_session;
  match session_user s with
  | None => mret (redirect "/")
  | Some user =>
      let mon := truthy_arg (args req !! "month") in
      d ← get_db;
      let rows := select_expenses user mon d in
      let title := default "All Data" mon in
      let total := total_of rows in
      mret (send_file
              (PdfReport title
                 (map (λ r, (date r, category r, amount r)) rows)
                 total))
  end.

End Handlers.

(** ** The two sums of the dashboard, over any addition

    [sum(...)] and the loop [d[k] += x] of lines 157 to 167, with the
    addition and its zero left open: exact over the rationals, rounding
    over binary64. *)
Section Arithmetic.
Context {N : Type} (zero : N) (add : N → N → N).

(** [sum(xs)]: from 0, left to right. *)
Definition sum_with (xs : list N) : N := foldl add zero xs.

(** [for (k, x) in rows: d[k] += x] on a [defaultdict]. *)
Definition group_with (rows : list (string * N)) : gmap string N :=
  foldl (λ d r, <[r.1 := add (default zero (d !! r.1)) r.2]> d) ∅ rows.

(** The values of a mapping, added up. *)
Definition sum_values_with (d : gmap string N) : N :=
  map_fold (λ _ v acc, add acc v) zero d.

End Arithmetic.

(** The keys and amounts the category loop reads off the rows. *)
Definition category_amounts `{Runtime} (es : list expense_row) : list (string * Qc) :=
  map (λ e, (category e, parse_float_safe (amount e))) es.

(** ** Routing and runs *)

(** The routes of the application.  [Login] carries the two clock
    readings of [login], [Signup] the salt drawn by the hash, [Dashboard]
    its clock reading. *)
Inductive route :=
| Login (now now' : Z)
| Signup (salt : string)
| Logout
| Dashboard (now : Z)
| Add
| Delete (id : Z)
| Edit (id : Z)
| SetBudget
| ClearMonth
| ClearAll
| ExportPdf.

(** The [methods=] of each [@app.route]; the default is GET. *)
Definition allowed (r : route) (m : http_method) : bool :=
  match r, m with
  | (Login _ _ | Signup _ | Add | Edit _), _ => true
  | (Logout | Dashboard _ | Delete _ | ExportPdf), GET => true
  | (SetBudget | ClearMonth | ClearAll), POST => true
  | _, _ => false
  end.

(** The outcome of a request: the handler's, or a refusal of the method
    by the router, before the handler runs. *)
Inductive outcome :=
| Handled (res : result (response * world))
| MethodNotAllowed.

Definition handle `{Runtime} (r : route) (req : request) (w : world) : outcome :=
  if allowed r (method req) then
    Handled
      (match r with
       | Login now now' => login now now' req w
       | Signup salt => signup salt req w
       | Logout => logout w
       | Dashboard now => dashboard now req w
       | Add => add req w
       | Delete id => delete id w
       | Edit id => edit id req w
       | SetBudget => set_budget req w
       | ClearMonth => clear_month req w
       | ClearAll => clear_all w
       | ExportPdf => export_pdf req w
       end)
  else MethodNotAllowed.

(** The world after a handler ran: its new world, or the old one when it
    raised. *)
Definition after {A} (h : M A) (w : world) : world :=
  match h w with
  | Return (_, w') => w'
  | Raise _ => w
  end.

Definition step `{Runtime} (w : world) (c : route * request) : world :=
  match handle c.1 c.2 w with
  | Handled (Return (_, w')) => w'
  | Handled (Raise _) => w
  | MethodNotAllowed => w
  end.

(** The world after [init_db] on a fresh file, with an empty session. *)
Definition init_world : world :=
  World (Database [] [] [] 0 0 0) (Session None []).

Definition run `{Runtime} (w : world) (cs : list (route * request)) : world :=
  foldl step w cs.

(** The worlds the application can be in. *)
Definition reachable `{Runtime} (w : world) : Prop :=
  ∃ cs, run init_world cs = w.

(** ** Notions used by the statements *)

Definition no_json : json_body := JsonBody None None.

(** An integer of a URL that SQLite binds as a parameter: the converter
    [<int:id>] takes digits only, and SQLite 64-bit signed integers. *)
Definition url_id (id : Z) : Prop := 0 ≤ id < 2 ^ 63.

(** A value of a JSON body that SQLite binds as a parameter: a number
    within the 64-bit integers (Python raises on a larger [int]), any
    text, null. *)
Definition sqlite_bindable (v : pyval) : Prop :=
  match v with
  | PyNum q => (Qc_of_Z (- 2 ^ 63) ≤ q ∧ q < Qc_of_Z (2 ^ 63))%Qc
  | _ => True
  end.

Global Instance url_id_dec id : Decision (url_id id).
Proof. unfold url_id. apply _. Defined.
Global Instance sqlite_bindable_dec v : Decision (sqlite_bindable v).
Proof. destruct v; apply _. Defined.

(** A set-budget body with a month text and an amount that can be
    bound.  On such a body no line of [set_budget] raises once the
    session is read. *)
Definition well_formed_budget (req : request) : Prop :=
  is_Some (json_month (json req)) ∧
  ∃ a, json_amount (json req) = Some a ∧ sqlite_bindable a.

(** A sequence of set-budget requests of one client, each answered
    before the next is sent, with the answers in order.  A request that
    raises ends the sequence. *)
Fixpoint set_budgets `{Runtime} (reqs : list request) : M (list response) :=
  match reqs with
  | [] => mret []
  | req :: reqs =>
      r ← set_budget req;
      rs ← set_budgets reqs;
      mret (r :: rs)
  end.

(** A form submission and a query string. *)
Definition post_form (fields : list (string * string)) : request :=
  Request POST (list_to_map fields) ∅ no_json.
Definition get_args (fields : list (string * string)) : request :=
  Request GET ∅ (list_to_map fields) no_json.
Definition post_json (mon : option string) (amt : option pyval) : request :=
  Request POST ∅ ∅ (JsonBody mon amt).

Definition credentials (u p : string) : request :=
  post_form [("username", u); ("password", p)].

(** The sum of the values of a mapping. *)
Definition sum_values (m : gmap string Qc) : Qc :=
  map_fold (λ _ v acc, (acc + v)%Qc) 0%Qc m.

(** The total of the rows of a list whose key is [k]. *)
Definition group_total `{Runtime} (key : expense_row → string) (k : string)
    (es : list expense_row) : Qc :=
  total_of (List.filter (λ e, bool_decide (key e = k)) es).

Definition has_key (key : expense_row → string) (k : string)
    (es : list expense_row) : bool :=
  existsb (λ e, bool_decide (key e = k)) es.

(** Number of budget rows of a pair. *)
Definition budget_count (user mon : string) (d : database) : nat :=
  length (List.filter (budget_is user mon) (budgets d)).

(** Every stored lock comes with a counter at the threshold or above. *)
Definition lock_implies_threshold (d : database) : Prop :=
  ∀ r, r ∈ users d → is_Some (lock_time r) → MAX_LOGIN_ATTEMPTS ≤ attempts r.

(** Names are unique (the UNIQUE constraint), and a stored lock comes
    with a counter at the threshold or above. *)
Definition accounts_ok (d : database) : Prop :=
  NoDup (map username (users d)) ∧ lock_implies_threshold d.

(** The effective month of a dashboard request: the filter month if
    present, else the current calendar month. *)
Definition effective_month `{Runtime} (now : Z) (req : request) : string :=
  default (datetime_strftime_Ym now) (truthy_arg (args req !! "month")).

(** The budget alert in the words of the specification: a budget row
    exists for the identity and the effective month, and the total of
    that month's expenses reaches its amount. *)
Definition spec_budget_alert `{Runtime} (now : Z) (req : request) (user : string)
    (d : database) : Prop :=
  ∃ row b,
    select_budget user (effective_month now req) d = Some row ∧
    budget_amount row = PyNum b ∧
    (b ≤ total_of (select_expenses user (Some (effective_month now req)) d))%Qc.

(** ** Transitions

    What one request can do to the world, handler by handler: the
    statement it commits and what it leaves of the session identity. *)
Section Transitions.
Context `{Runtime}.

Inductive transition : world → world → Prop :=
| tr_session w s :
    session_user s = session_user (sess w) ∨ session_user s = None →
    transition w (World (db w) s)
| tr_login w u user s :
    select_user u (db w) = Some user →
    session_user s = Some u →
    transition w (World (update_user_reset u (db w)) s)
| tr_lock w u user lock s :
    select_user u (db w) = Some user →
    MAX_LOGIN_ATTEMPTS ≤ attempts user + 1 →
    session_user s = session_user (sess w) →
    transition w (World (update_user_lock (attempts user + 1) lock u (db w)) s)
| tr_attempts w u user s :
    select_user u (db w) = Some user →
    attempts user + 1 < MAX_LOGIN_ATTEMPTS →
    session_user s = session_user (sess w) →
    transition w (World (update_user_attempts (attempts user + 1) u (db w)) s)
| tr_signup w u hashp s :
    select_user u (db w) = None →
    session_user s = session_user (sess w) →
    transition w (World (insert_user u hashp (db w)) s)
| tr_add w u amt cat dt s :
    session_user (sess w) = Some u →
    session_user s = Some u →
    transition w (World (insert_expense u amt cat dt (db w)) s)
| tr_delete w u id s :
    session_user (sess w) = Some u →
    session_user s = Some u →
    transition w (World (delete_expense id u (db w)) s)
| tr_edit w u amt cat dt id s :
    session_user (sess w) = Some u →
    session_user s = Some u →
    transition w (World (update_expense amt cat dt id u (db w)) s)
| tr_set_budget w u mon amt s :
    session_user (sess w) = Some u →
    session_user s = Some u →
    transition w (World (insert_budget u mon amt (delete_budget u mon (db w))) s)
| tr_clear w u mon s :
    session_user (sess w) = Some u →
    session_user s = Some u →
    transition w (World (delete_expenses u mon (db w)) s).

End Transitions.

(** ** Invariants of the tables *)

(** The ids of a table: positive, at most the AUTOINCREMENT counter, and
    strictly increasing in row order. *)
Definition ids_ok (ids : list Z) (seq : Z) : Prop :=
  0 ≤ seq ∧ StronglySorted Z.lt ids ∧ Forall (λ i, 0 < i ≤ seq) ids.

Definition tables_ids_ok (d : database) : Prop :=
  ids_ok (map user_id (users d)) (seq_users d) ∧
  ids_ok (map expense_id (expenses d)) (seq_expenses d) ∧
  ids_ok (map budget_id (budgets d)) (seq_budgets d).

(** A name with an account. *)
Definition registered (u : string) (d : database) : Prop :=
  u ∈ map username (users d).

(** The session identity and every owner of an expense or a budget has
    an account. *)
Definition owners_registered (w : world) : Prop :=
  (∀ u, session_user (sess w) = Some u → registered u (db w)) ∧
  (∀ e, e ∈ expenses (db w) → registered (expense_user e) (db w)) ∧
  (∀ b, b ∈ budgets (db w) → registered (budget_user b) (db w)).

(** The counters of the accounts never go below zero. *)
Definition attempts_nonneg (d : database) : Prop :=
  ∀ r, r ∈ users d → 0 ≤ attempts r.

(** ** Drawing the report

    The calls [export_pdf] makes on its canvas (lines 303 to 327), with
    heights as exact rationals like every REAL value here. *)

(** What a [drawString] writes: the title after "Expense Report - ", a
    text of a row, [str] of an amount cell, or the total handed to
    [round(_, 2)] after "TOTAL = ". *)
Inductive pdf_text :=
| TitleText (title : string)
| StrText (s : string)
| CellText (v : pyval)
| TotalText (total : Qc).

Inductive canvas_op :=
| SetFont (name : string) (size : Z)
| DrawString (x : Z) (y : Qc) (text : pdf_text)
| ShowPage
| Save.

(** The height of reportlab's [A4], 297 mm at 72 / 25.4 points per mm. *)
Definition A4_height : Qc := Q2Qc (213840 # 254).

Section Report.
Context `{Runtime}.

(** The loop over the rows: the ops it emits, and [y] and [total] after
    it. *)
Fixpoint draw_rows (h : Qc) (rows : list expense_row) (y total : Qc)
  : list canvas_op * (Qc * Qc) :=
  match rows with
  | [] => ([], (y, total))
  | r :: rows =>
      let break := bool_decide (y < Qc_of_Z 50)%Qc in
      let y := if break then (h - Qc_of_Z 50)%Qc else y in
      let rest :=
        draw_rows h rows (y - Qc_of_Z 15)%Qc
                  (total + parse_float_safe (amount r))%Qc in
      ((if break then [ShowPage] else []) ++
       [DrawString 40 y (StrText (date r));
        DrawString 150 y (StrText (category r));
        DrawString 300 y (CellText (amount r))] ++
       rest.1,
       rest.2)
  end.

Definition draw_report (h : Qc) (title : string) (rows : list expense_row)
  : list canvas_op :=
  let y := (h - Qc_of_Z 40)%Qc in
  let body := draw_rows h rows (y - Qc_of_Z 30)%Qc 0%Qc in
  [SetFont "Helvetica-Bold" 14; DrawString 40 y (TitleText title);
   SetFont "Helvetica" 10] ++
  body.1 ++
  [SetFont "Helvetica-Bold" 12;
   DrawString 40 (body.2.1 - Qc_of_Z 20)%Qc (TotalText body.2.2);
   Save].

(** The canvas of [export_pdf] for a request, on A4. *)
Definition export_canvas (user : string) (req : request) (d : database)
  : list canvas_op :=
  let mon := truthy_arg (args req !! "month") in
  draw_report A4_height (default "All Data" mon) (select_expenses user mon d).

End Report.

(** The texts drawn at a horizontal position, with their heights, in
    drawing order. *)
Definition strings_at (x : Z) (ops : list canvas_op) : list (Qc * pdf_text) :=
  flat_map (λ op, match op with
                  | DrawString x' y t => if bool_decide (x' = x) then [(y, t)] else []
                  | _ => []
                  end) ops.

(** All the heights at which something is drawn. *)
Definition heights (ops : list canvas_op) : list Qc :=
  flat_map (λ op, match op with DrawString _ y _ => [y] | _ => [] end) ops.

(** The number of [showPage] calls. *)
Definition page_breaks (ops : list canvas_op) : nat :=
  length (List.filter (λ op, match op with ShowPage => true | _ => false end) ops).

(** The height of the row drawn after [k] rows on a page of the A4
    report: the first page starts 70 points below the top, the later
    ones 50. *)
Fixpoint row_height (first : bool) (k : nat) : Qc :=
  match k with
  | O => if first then (A4_height - Qc_of_Z 40 - Qc_of_Z 30)%Qc
         else (A4_height - Qc_of_Z 50)%Qc
  | S k => (row_height first k - Qc_of_Z 15)%Qc
  end.

(** How many rows an A4 page takes: 49 on the first, 50 on the others. *)
Definition page_rows (first : bool) : nat := if first then 49%nat else 50%nat.

(** ** A concrete runtime

    An executable stand-in for the environment, used to run the model on
    concrete requests: numbers are unsigned decimal integers, dates are
    [YYYY-MM-DD], the clock counts seconds from 1970-01-01, and a hash is
    the salt, a dollar sign and the password. *)
Module Concrete.

Definition digit_of (c : ascii) : option Z :=
  let n := Z.of_nat (nat_of_ascii c) in
  if bool_decide (48 ≤ n ≤ 57) then Some (n - 48) else None.

Fixpoint digits_value (acc : Z) (s : string) : option Z :=
  match s with
  | EmptyString => Some acc
  | String c s' => d ← digit_of c; digits_value (10 * acc + d) s'
  end.

Definition decimal (s : string) : option Z :=
  if bool_decide (s = "") then None else digits_value 0 s.

Definition float_of_string (s : string) : option Qc := Qc_of_Z <$> decimal s.

(** [YYYY-MM-DD] with a month in 1..12 and a day in 1..31. *)
Definition strftime_Ym (d : string) : option string :=
  y ← decimal (String.substring 0 4 d);
  m ← decimal (String.substring 5 2 d);
  dd ← decimal (String.substring 8 2 d);
  if bool_decide (String.length d = 10%nat) &&
     bool_decide (String.substring 4 1 d = "-") &&
     bool_decide (String.substring 7 1 d = "-") &&
     bool_decide (1 ≤ m ≤ 12) && bool_decide (1 ≤ dd ≤ 31)
  then Some (String.substring 0 7 d) else None.

Definition digit_char (z : Z) : string :=
  String (ascii_of_nat (Z.to_nat (48 + z `mod` 10))) EmptyString.

Fixpoint zero_padded (width : nat) (z : Z) : string :=
  match width with
  | O => ""
  | S n => zero_padded n (z `div` 10) +:+ digit_char z
  end.

(** Year and month of a count of days from 1970-01-01, in the proleptic
    Gregorian calendar. *)
Definition year_month_of_days (days : Z) : Z * Z :=
  let z := days + 719468 in
  let era := z `div` 146097 in
  let doe := z - era * 146097 in
  let yoe := (doe - doe `div` 1460 + doe `div` 36524 - doe `div` 146096) `div` 365 in
  let doy := doe - (365 * yoe + yoe `div` 4 - yoe `div` 100) in
  let mp := (5 * doy + 2) `div` 153 in
  let m := if bool_decide (mp < 10) then mp + 3 else mp - 9 in
  (yoe + era * 400 + (if bool_decide (m ≤ 2) then 1 else 0), m).

Definition clock_Ym (now : Z) : string :=
  let ym := year_month_of_days (now `div` 86400) in
  zero_padded 4 ym.1 +:+ "-" +:+ zero_padded 2 ym.2.

Definition make_hash (salt p : string) : string := salt +:+ "$" +:+ p.

Definition check_hash (h p : string) : bool :=
  match String.index 0 "$" h with
  | Some i => bool_decide (String.substring (S i) (String.length h - S i) h = p)
  | None => false
  end.

Definition runtime : Runtime := {|
  py_float := float_of_string;
  py_float_special := λ _, false;
  sqlite_numeric := float_of_string;
  sqlite_strftime_Ym := strftime_Ym;
  datetime_strftime_Ym := clock_Ym;
  generate_password_hash := make_hash;
  check_password_hash := check_hash
|}.

End Concrete.

(** ** Concrete runs

    The scenarios of the specification and the inputs at which the
    statements below are exercised, run on the concrete runtime. *)
Module Scenario.
Import Concrete.
#[local] Existing Instance runtime.

Definition expense_form (amt cat dt : string) : request :=
  post_form [("amount", amt); ("category", cat); ("date", dt)].

(** 2024-03-01 00:00:00, in seconds. *)
Definition march_2024 : Z := 1709251200.

(** "alice" signs up, logs in and adds the three expenses of the
    scenario. *)
Definition alice_calls : list (route * request) :=
  [ (Signup "salt", credentials "alice" "secret");
    (Login march_2024 march_2024, credentials "alice" "secret");
    (Add, expense_form "100" "food" "2024-01-05");
    (Add, expense_form "50" "food" "2024-01-20");
    (Add, expense_form "900" "rent" "2024-02-01") ].

Definition alice_world : world := run init_world alice_calls.

(** The same with a budget of 100 set for January. *)
Definition alice_budget_world : world :=
  run alice_world [(SetBudget, post_json (Some "2024-01") (Some (PyNum (Qc_of_Z 100))))].

(** A budget of 0 set for January. *)
Definition alice_zero_budget_world : world :=
  run alice_world [(SetBudget, post_json (Some "2024-01") (Some (PyNum (Qc_of_Z 0))))].

(** A budget of 1000 set for March, a month without expenses. *)
Definition alice_march_budget_world : world :=
  run alice_world [(SetBudget, post_json (Some "2024-03") (Some (PyNum (Qc_of_Z 1000))))].

(** "bob" signs up after alice logged out, and logs in: the expenses of
    alice are foreign to his session. *)
Definition bob_world : world :=
  run alice_world
      [ (Logout, get_args []);
        (Signup "pepper", credentials "bob" "hunter2");
        (Login march_2024 march_2024, credentials "bob" "hunter2") ].

(** The account of alice right after signup. *)
Definition signed_up_world : world :=
  run init_world [(Signup "salt", credentials "alice" "secret")].

Definition alice_row : user_row := UserRow 1 "alice" "salt$secret" 0 None.

(** Three wrong passwords, at seconds 10, 20 and 30 of March. *)
Definition locked_world : world :=
  run signed_up_world
      [ (Login (march_2024 + 10) (march_2024 + 10), credentials "alice" "a");
        (Login (march_2024 + 20) (march_2024 + 20), credentials "alice" "b");
        (Login (march_2024 + 30) (march_2024 + 30), credentials "alice" "c") ].

Definition alice_locked_row : user_row :=
  UserRow 1 "alice" "salt$secret" 3 (Some (march_2024 + 30)).


(** The requests that lead to [bob_world] and to [alice_budget_world],
    from the start. *)
Definition bob_calls : list (route * request) :=
  alice_calls ++
  [ (Logout, get_args []);
    (Signup "pepper", credentials "bob" "hunter2");
    (Login march_2024 march_2024, credentials "bob" "hunter2") ].

Definition alice_budget_calls : list (route * request) :=
  alice_calls ++
  [(SetBudget, post_json (Some "2024-01") (Some (PyNum (Qc_of_Z 100))))].

Definition january_page : request := get_args [("month", "2024-01")].

(** Three amounts as binary64 numbers, with their categories, in the
    order of their rows. *)
Definition rounding_rows : list (string * float) :=
  [("a", 1%float); ("b", 1%float); ("a", 1e16%float)].
End Scenario.

(** * Properties *)

(** Unfolds the operations of the handler monad. *)
Ltac run_handler :=
  cbv [mbind M_bind mret M_ret raise get_db get_session execute flash
       session_set_user session_get_user session_clear form_get json_get];
  cbn [db sess session_user flashes].

(** A clock reading in microseconds is below a bound in whole seconds
    exactly when its whole-second part is. *)
Lemma subsecond_irrelevant (us bound : Z) :
  us < bound * 1000000 ↔ us `div` 1000000 < bound.
Proof.
  split; intros Hlt.
  - apply Z.div_lt_upper_bound; lia.
  - destruct (Z_lt_ge_dec us (bound * 1000000)) as [|Hge]; [done|].
    assert (bound ≤ us `div` 1000000) by (apply Z.div_le_lower_bound; lia).
    lia.
Qed.

Lemma credentials_username u p : form (credentials u p) !! "username" = Some u.
Proof. reflexivity. Qed.

Lemma credentials_password u p : form (credentials u p) !! "password" = Some p.
Proof. reflexivity. Qed.

Section Accounts.
Context `{Runtime}.

(** *** The users table *)

Lemma select_user_username u d r : select_user u d = Some r → username r = u.
Proof.
  unfold select_user. intros Hf. apply find_some in Hf as [_ Hb].
  by apply bool_decide_eq_true in Hb.
Qed.

Lemma select_user_elem u d r : select_user u d = Some r → r ∈ users d.
Proof.
  unfold select_user. intros Hf. apply find_some in Hf as [Hin _].
  by apply list_elem_of_In.
Qed.

(** A rewrite of the rows of one name that keeps the name is seen by the
    SELECT of that name, and by no other. *)
Lemma find_user_map (f : user_row → user_row) u v l :
  (∀ r, username (f r) = username r) →
  List.find (λ r, bool_decide (username r = v))
            (map (λ r, if bool_decide (username r = u) then f r else r) l)
  = (λ r, if bool_decide (username r = u) then f r else r)
      <$> List.find (λ r, bool_decide (username r = v)) l.
Proof.
  intros Hf. induction l as [|r l IH]; [done|]. cbn [map List.find].
  destruct (bool_decide (username r = u)) eqn:Hu.
  - rewrite Hf. destruct (bool_decide (username r = v)) eqn:Hv; [|done].
    cbn. by rewrite Hu.
  - destruct (bool_decide (username r = v)) eqn:Hv; [|done].
    cbn. by rewrite Hu.
Qed.

Lemma select_user_reset u v d :
  select_user v (update_user_reset u d)
  = (λ r, if bool_decide (username r = u)
          then UserRow (user_id r) (username r) (password r) 0 None else r)
      <$> select_user v d.
Proof. unfold select_user, update_user_reset. cbn. by apply find_user_map. Qed.

Lemma select_user_lock a lock u v d :
  select_user v (update_user_lock a lock u d)
  = (λ r, if bool_decide (username r = u)
          then UserRow (user_id r) (username r) (password r) a (Some lock) else r)
      <$> select_user v d.
Proof. unfold select_user, update_user_lock. cbn. by apply find_user_map. Qed.

Lemma select_user_attempts a u v d :
  select_user v (update_user_attempts a u d)
  = (λ r, if bool_decide (username r = u)
          then UserRow (user_id r) (username r) (password r) a (lock_time r) else r)
      <$> select_user v d.
Proof. unfold select_user, update_user_attempts. cbn. by apply find_user_map. Qed.

(** *** The four ways through a submitted login *)

Lemma login_unknown now now' req w :
  method req = POST →
  (form req !! "username") ≫= (λ u, select_user u (db w)) = None →
  login now now' req w =
    Return (redirect "/",
            World (db w) (Session (session_user (sess w))
                                  (flashes (sess w) ++ [InvalidUsernamePassword]))).
Proof.
  intros Hm Hu. unfold login. rewrite Hm. run_handler.
  destruct (form req !! "username") as [u|]; cbn in Hu |- *; [|done].
  by rewrite Hu.
Qed.

Lemma login_refused now now' req w u user :
  method req = POST →
  form req !! "username" = Some u →
  select_user u (db w) = Some user →
  lock_active now user = true →
  login now now' req w =
    Return (redirect "/",
            World (db w) (Session (session_user (sess w))
                                  (flashes (sess w) ++ [AccountLockedTryLater]))).
Proof.
  intros Hm Hu Hsel Hlock. unfold login. rewrite Hm, Hu. run_handler.
  cbn. rewrite Hsel. cbn. by rewrite Hlock.
Qed.

Lemma login_success now now' req w u p user :
  method req = POST →
  form req !! "username" = Some u →
  form req !! "password" = Some p →
  select_user u (db w) = Some user →
  lock_active now user = false →
  check_password_hash (password user) p = true →
  login now now' req w =
    Return (redirect "/dashboard",
            World (update_user_reset u (db w))
                  (Session (Some u) (flashes (sess w) ++ [Welcome u]))).
Proof.
  intros Hm Hu Hp Hsel Hlock Hchk. unfold login. rewrite Hm, Hu, Hp. run_handler.
  cbn. rewrite Hsel. cbn. by rewrite Hlock, Hchk.
Qed.

Lemma login_wrong_below now now' req w u p user :
  method req = POST →
  form req !! "username" = Some u →
  form req !! "password" = Some p →
  select_user u (db w) = Some user →
  lock_active now user = false →
  check_password_hash (password user) p = false →
  attempts user + 1 < MAX_LOGIN_ATTEMPTS →
  login now now' req w =
    Return (redirect "/",
            World (update_user_attempts (attempts user + 1) u (db w))
                  (Session (session_user (sess w))
                           (flashes (sess w) ++ [WrongPassword]))).
Proof.
  intros Hm Hu Hp Hsel Hlock Hchk Hlt. unfold login. rewrite Hm, Hu, Hp.
  run_handler. cbn. rewrite Hsel. cbn. rewrite Hlock, Hchk.
  by rewrite bool_decide_eq_false_2 by lia.
Qed.

Lemma login_wrong_locks now now' req w u p user :
  method req = POST →
  form req !! "username" = Some u →
  form req !! "password" = Some p →
  select_user u (db w) = Some user →
  lock_active now user = false →
  check_password_hash (password user) p = false →
  MAX_LOGIN_ATTEMPTS ≤ attempts user + 1 →
  login now now' req w =
    Return (redirect "/",
            World (update_user_lock (attempts user + 1) (now_str now') u (db w))
                  (Session (session_user (sess w))
                           (flashes (sess w) ++ [AccountLocked]))).
Proof.
  intros Hm Hu Hp Hsel Hlock Hchk Hle. unfold login. rewrite Hm, Hu, Hp.
  run_handler. cbn. rewrite Hsel. cbn. rewrite Hlock, Hchk.
  by rewrite bool_decide_eq_true_2 by lia.
Qed.


(** A wrong password on an account that is not refused by a lock: the
    counter goes up by one, and the lock is written when the new counter
    reaches the threshold. *)
Lemma login_wrong now now' req w u p user :
  method req = POST →
  form req !! "username" = Some u →
  form req !! "password" = Some p →
  select_user u (db w) = Some user →
  lock_active now user = false →
  check_password_hash (password user) p = false →
  ∃ w',
    login now now' req w = Return (redirect "/", w') ∧
    session_user (sess w') = session_user (sess w) ∧
    select_user u (db w') =
      Some (UserRow (user_id user) (username user) (password user)
                    (attempts user + 1)
                    (if bool_decide (MAX_LOGIN_ATTEMPTS ≤ attempts user + 1)
                     then Some (now_str now') else lock_time user)) ∧
    last (flashes (sess w')) =
      Some (if bool_decide (MAX_LOGIN_ATTEMPTS ≤ attempts user + 1)
            then AccountLocked else WrongPassword).
Proof.
  intros Hm Hu Hp Hsel Hlock Hchk.
  pose proof (select_user_username _ _ _ Hsel) as Hname.
  case_bool_decide as Hle.
  - eexists. split; [by eapply login_wrong_locks|].
    cbn [db sess session_user flashes]. split; [done|].
    rewrite select_user_lock, Hsel. cbn.
    rewrite bool_decide_eq_true_2 by done. by rewrite last_snoc.
  - eexists. split; [eapply login_wrong_below; eauto; lia|].
    cbn [db sess session_user flashes]. split; [done|].
    rewrite select_user_attempts, Hsel. cbn.
    rewrite bool_decide_eq_true_2 by done. by rewrite last_snoc.
Qed.

Lemma lock_active_none now user : lock_time user = None → lock_active now user = false.
Proof. unfold lock_active. by intros ->. Qed.

Lemma lock_active_within now user lock :
  lock_time user = Some lock →
  now < lock + timedelta_minutes LOCK_MINUTES →
  lock_active now user = true.
Proof. unfold lock_active. intros -> ?. by apply bool_decide_eq_true_2. Qed.

Lemma lock_active_expired now user lock :
  lock_time user = Some lock →
  lock + timedelta_minutes LOCK_MINUTES ≤ now →
  lock_active now user = false.
Proof. unfold lock_active. intros -> ?. apply bool_decide_eq_false_2. lia. Qed.

End Accounts.

(** ** C2: lockout after three consecutive failures *)

(** C2.  On an account whose counter is 0 and that has no lock, three
    consecutive submissions of a wrong password all come back to the
    login page; after the third the stored row has counter 3 and a lock
    timestamp equal to the clock reading [now_str] took in that third
    request.  From then on, every submission made while
    now < lock_time + 5 minutes, with any password, the right one
    included, is answered by the locked-account message and changes
    neither the database nor the session identity; once
    lock_time + 5 minutes <= now, the right password logs in. *)
Theorem lockout_after_threshold `{Runtime} w u user p1 p2 p3 t1 t1' t2 t2' t3 t3' :
  select_user u (db w) = Some user →
  attempts user = 0 →
  lock_time user = None →
  check_password_hash (password user) p1 = false →
  check_password_hash (password user) p2 = false →
  check_password_hash (password user) p3 = false →
  ∃ w1 w2 w3,
    login t1 t1' (credentials u p1) w = Return (redirect "/", w1) ∧
    login t2 t2' (credentials u p2) w1 = Return (redirect "/", w2) ∧
    login t3 t3' (credentials u p3) w2 = Return (redirect "/", w3) ∧
    select_user u (db w3) =
      Some (UserRow (user_id user) (username user) (password user)
                    MAX_LOGIN_ATTEMPTS (Some (now_str t3'))) ∧
    last (flashes (sess w3)) = Some AccountLocked ∧
    (∀ now now' p,
        now < now_str t3' + timedelta_minutes LOCK_MINUTES →
        login now now' (credentials u p) w3 =
          Return (redirect "/",
                  World (db w3)
                        (Session (session_user (sess w3))
                                 (flashes (sess w3) ++ [AccountLockedTryLater])))) ∧
    (∀ now now' p,
        now_str t3' + timedelta_minutes LOCK_MINUTES ≤ now →
        check_password_hash (password user) p = true →
        ∃ w4,
          login now now' (credentials u p) w3 = Return (redirect "/dashboard", w4) ∧
          session_user (sess w4) = Some u).
Proof.
  intros Hsel Ha Hl Hp1 Hp2 Hp3.
  destruct (login_wrong t1 t1' (credentials u p1) w u p1 user)
    as (w1 & Hr1 & _ & Hsel1 & _); try done; [by apply lock_active_none|].
  rewrite Ha in Hsel1. cbn in Hsel1.
  destruct (login_wrong t2 t2' (credentials u p2) w1 u p2 _ eq_refl eq_refl eq_refl Hsel1)
    as (w2 & Hr2 & _ & Hsel2 & _); [by apply lock_active_none|done|].
  cbn in Hsel2. rewrite Hl in Hsel2.
  destruct (login_wrong t3 t3' (credentials u p3) w2 u p3 _ eq_refl eq_refl eq_refl Hsel2)
    as (w3 & Hr3 & _ & Hsel3 & Hfl3); [by apply lock_active_none|done|].
  cbn in Hsel3, Hfl3.
  exists w1, w2, w3. repeat split; try done.
  - intros now now' p Hnow.
    by eapply login_refused; [..|eapply lock_active_within].
  - intros now now' p Hnow Hchk. eexists. split.
    + eapply login_success; [done..|exact Hsel3| |exact Hchk].
      by eapply lock_active_expired.
    + done.
Qed.

(** ** C4: a successful login resets the account *)

Lemma users_reset_rows `{Runtime} u d r :
  r ∈ users (update_user_reset u d) → username r = u →
  attempts r = 0 ∧ lock_time r = None.
Proof.
  unfold update_user_reset. cbn. intros Hin Hname.
  apply list_elem_of_fmap in Hin as (r0 & -> & _).
  case_bool_decide as Hu; [done|]. by destruct Hu.
Qed.

(** Only the accepted password leads to the dashboard: whenever
    [login] answers with that redirect, the rows of the submitted name
    were reset and the session is bound to the name. *)
Lemma login_dashboard_only_after_reset `{Runtime} now now' req w w' :
  login now now' req w = Return (redirect "/dashboard", w') →
  ∃ u,
    form req !! "username" = Some u ∧
    session_user (sess w') = Some u ∧
    db w' = update_user_reset u (db w) ∧
    (∃ r, select_user u (db w') = Some r ∧ attempts r = 0 ∧ lock_time r = None) ∧
    (∀ r, r ∈ users (db w') → username r = u →
          attempts r = 0 ∧ lock_time r = None).
Proof.
  unfold login. destruct (method req); [done|]. run_handler.
  destruct (form req !! "username") as [u|]; cbn; [|done].
  destruct (select_user u (db w)) as [user|] eqn:Hsel; cbn; [|done].
  destruct (lock_active now user); [done|].
  destruct (form req !! "password") as [p|]; [|done].
  destruct (check_password_hash (password user) p).
  - intros [= <-]. exists u. cbn [db sess session_user flashes].
    do 3 (split; [done|]). split.
    + rewrite select_user_reset, Hsel. cbn.
      rewrite bool_decide_eq_true_2 by by eapply select_user_username.
      by eexists.
    + intros r. apply users_reset_rows.
  - by case_bool_decide.
Qed.

Lemma users_reset_others `{Runtime} u d :
  map (λ r, (user_id r, username r, password r)) (users (update_user_reset u d))
    = map (λ r, (user_id r, username r, password r)) (users d) ∧
  ∀ r, r ∈ users d → username r ≠ u → r ∈ users (update_user_reset u d).
Proof.
  unfold update_user_reset. cbn. split.
  - rewrite map_map. apply map_ext. intros r. by case_bool_decide.
  - intros r Hin Hne. apply list_elem_of_fmap. exists r.
    by rewrite bool_decide_eq_false_2.
Qed.

(** C4.  A successful authentication is a submitted login whose name has
    a stored row, whose lock, if the row holds one, has run out
    (lock_time + 5 minutes <= now), and whose password
    [check_password_hash] accepts.  Every such login, whatever counter
    and whatever expired lock the row holds, returns the redirect to
    the dashboard and leaves a database in which the row of that name,
    as a SELECT returns it, is the old row with counter 0 and no lock,
    and in which every row of that name has counter 0 and no lock.  It
    binds the session to the name and writes nothing else: ids, names and
    hashes of all rows, the rows of other names, and the other two
    tables are as before. *)
Theorem login_success_resets `{Runtime} now now' req w u p user :
  method req = POST →
  form req !! "username" = Some u →
  form req !! "password" = Some p →
  select_user u (db w) = Some user →
  (∀ lock, lock_time user = Some lock →
           lock + timedelta_minutes LOCK_MINUTES ≤ now) →
  check_password_hash (password user) p = true →
  ∃ w',
    login now now' req w = Return (redirect "/dashboard", w') ∧
    session_user (sess w') = Some u ∧
    select_user u (db w') =
      Some (UserRow (user_id user) (username user) (password user) 0 None) ∧
    (∀ r, r ∈ users (db w') → username r = u →
          attempts r = 0 ∧ lock_time r = None) ∧
    map (λ r, (user_id r, username r, password r)) (users (db w'))
      = map (λ r, (user_id r, username r, password r)) (users (db w)) ∧
    (∀ r, r ∈ users (db w) → username r ≠ u → r ∈ users (db w')) ∧
    expenses (db w') = expenses (db w) ∧
    budgets (db w') = budgets (db w).
Proof.
  intros Hm Hu Hp Hsel Hexp Hchk.
  assert (lock_active now user = false) as Hlock.
  { destruct (lock_time user) as [lock|] eqn:Hl;
      [by eapply lock_active_expired; eauto|by apply lock_active_none]. }
  eexists. split; [by eapply login_success|].
  cbn [db sess session_user flashes]. split; [done|]. split.
  { rewrite select_user_reset, Hsel. cbn.
    by rewrite bool_decide_eq_true_2 by by eapply select_user_username. }
  split; [intros r; apply users_reset_rows|].
  destruct (users_reset_others u (db w)) as [Hmap Hothers].
  by repeat split.
Qed.

(** ** C10: an expired lock leaves the counter at the threshold *)

Section Invariant.
Context `{Runtime}.

Lemma unique_row l u (r user : user_row) :
  NoDup (map username l) →
  List.find (λ r, bool_decide (username r = u)) l = Some user →
  r ∈ l → username r = u → r = user.
Proof.
  induction l as [|x l IH]; cbn; [done|].
  intros Hnd Hfind Hin Hname. apply NoDup_cons in Hnd as [Hx Hnd].
  case_bool_decide as Hxu.
  - injection Hfind as ->. apply elem_of_cons in Hin as [->|Hin]; [done|].
    destruct Hx. rewrite Hxu, <- Hname. by apply list_elem_of_fmap_2.
  - apply elem_of_cons in Hin as [->|Hin]; [done|]. by apply IH.
Qed.

Lemma map_username_update (f : user_row → user_row) u l :
  (∀ r, username (f r) = username r) →
  map username (map (λ r, if bool_decide (username r = u) then f r else r) l)
  = map username l.
Proof.
  intros Hf. rewrite map_map. apply map_ext. intros r. by case_bool_decide.
Qed.

Lemma login_accounts_ok now now' req w :
  accounts_ok (db w) → accounts_ok (db (after (login now now' req) w)).
Proof.
  intros [Hnd Hinv]. unfold after, login. destruct (method req); [done|].
  run_handler.
  destruct (form req !! "username") as [u|]; cbn; [|done].
  destruct (select_user u (db w)) as [user|] eqn:Hsel; cbn; [|done].
  destruct (lock_active now user) eqn:Hlock; [done|].
  destruct (form req !! "password") as [p|]; [|done].
  destruct (check_password_hash (password user) p).
  - cbn. split.
    + unfold update_user_reset. cbn. by rewrite map_username_update.
    + intros r Hin. unfold update_user_reset in Hin. cbn in Hin.
      apply list_elem_of_fmap in Hin as (r0 & -> & Hin).
      case_bool_decide; [by intros [? [=]]|by apply Hinv].
  - case_bool_decide as Hle; cbn; split.
    + unfold update_user_lock. cbn. by rewrite map_username_update.
    + intros r Hin. unfold update_user_lock in Hin. cbn in Hin.
      apply list_elem_of_fmap in Hin as (r0 & -> & Hin).
      case_bool_decide; [done|by apply Hinv].
    + unfold update_user_attempts. cbn. by rewrite map_username_update.
    + intros r Hin. unfold update_user_attempts in Hin. cbn in Hin.
      apply list_elem_of_fmap in Hin as (r0 & -> & Hin).
      case_bool_decide as Hname; [|by apply Hinv]. cbn. intros Hsome.
      assert (r0 = user) as -> by by eapply unique_row.
      apply Hinv in Hsome; [|by eapply select_user_elem].
      unfold MAX_LOGIN_ATTEMPTS in *. lia.
Qed.

Lemma signup_accounts_ok salt req w :
  accounts_ok (db w) → accounts_ok (db (after (signup salt req) w)).
Proof.
  intros [Hnd Hinv]. unfold after, signup. destruct (method req); [done|].
  run_handler.
  destruct (form req !! "username") as [u|]; cbn; [|done].
  destruct (form req !! "password") as [p|]; cbn; [|done].
  destruct (select_user u (db w)) as [user|] eqn:Hsel; cbn; [done|].
  unfold insert_user, with_users. split; cbn [users].
  - rewrite map_app. cbn. apply NoDup_app. repeat split; [done| |apply NoDup_singleton].
    intros x Hx ->%list_elem_of_singleton.
    apply list_elem_of_fmap in Hx as (r & Hname & Hin).
    unfold select_user in Hsel.
    apply list_elem_of_In in Hin.
    eapply find_none in Hsel; [|done]. cbn in Hsel.
    by apply bool_decide_eq_false in Hsel.
  - intros r. cbn [users].
    intros [Hin| ->%list_elem_of_singleton]%elem_of_app; [by apply Hinv|].
    by intros [? [=]].
Qed.

End Invariant.

Section Frames.
Context `{Runtime}.

(** *** Handlers that only read *)

Lemma dashboard_reads now req w r w' :
  dashboard now req w = Return (r, w') → w' = w.
Proof.
  unfold dashboard, budget_alert. run_handler.
  destruct (session_user (sess w)); [|by intros [= _ <-]].
  destruct (py_truthy _); [|by intros [= _ <-]].
  destruct (from_option _ _ _); by try intros [= _ <-].
Qed.

Lemma export_pdf_reads req w r w' :
  export_pdf req w = Return (r, w') → w' = w.
Proof.
  unfold export_pdf. run_handler.
  destruct (session_user (sess w)); by intros [= _ <-].
Qed.

(** *** Handlers that leave the users table alone *)

Lemma after_reads {A} (h : M A) w :
  (∀ r w', h w = Return (r, w') → w' = w) → after h w = w.
Proof.
  intros Hr. unfold after. destruct (h w) as [[r w']|] eqn:Hh; [|done].
  by eapply Hr.
Qed.

Lemma add_users req w : users (db (after (add req) w)) = users (db w).
Proof.
  unfold after, add. run_handler.
  destruct (session_user (sess w)); [|done]. destruct (method req); [done|].
  by repeat (destruct (form req !! _); cbn; [|done]).
Qed.

Lemma delete_users id w : users (db (after (delete id) w)) = users (db w).
Proof.
  unfold after, delete. run_handler. by destruct (session_user (sess w)).
Qed.

Lemma edit_users id req w : users (db (after (edit id req) w)) = users (db w).
Proof.
  unfold after, edit, edit_category. run_handler.
  destruct (session_user (sess w)); [|done]. destruct (method req); [done|].
  destruct (form req !! "amount"); cbn; [|done].
  destruct (truthy_arg _); cbn;
    by repeat (destruct (form req !! _); cbn; [|done]).
Qed.

Lemma set_budget_users req w : users (db (after (set_budget req) w)) = users (db w).
Proof.
  unfold after, set_budget. run_handler.
  destruct (session_user (sess w)); [|done].
  destruct (json_month (json req)); cbn; [|done].
  by destruct (json_amount (json req)).
Qed.

Lemma clear_month_users req w : users (db (after (clear_month req) w)) = users (db w).
Proof.
  unfold after, clear_month. run_handler.
  destruct (session_user (sess w)); [|done].
  by destruct (json_month (json req)).
Qed.

Lemma clear_all_users w : users (db (after clear_all w)) = users (db w).
Proof.
  unfold after, clear_all. run_handler. by destruct (session_user (sess w)).
Qed.

Lemma step_after (c : route * request) w :
  step w c = w ∨
  step w c =
    after (match c.1 with
           | Login now now' => login now now' c.2
           | Signup salt => signup salt c.2
           | Logout => logout
           | Dashboard now => dashboard now c.2
           | Add => add c.2
           | Delete id => delete id
           | Edit id => edit id c.2
           | SetBudget => set_budget c.2
           | ClearMonth => clear_month c.2
           | ClearAll => clear_all
           | ExportPdf => export_pdf c.2
           end) w.
Proof.
  unfold step, handle, after. destruct (allowed _ _); [right|by left].
  by destruct c.1.
Qed.

Lemma step_accounts_ok w c : accounts_ok (db w) → accounts_ok (db (step w c)).
Proof.
  intros Hok. destruct (step_after c w) as [->| ->]; [done|].
  destruct c.1.
  - by apply login_accounts_ok.
  - by apply signup_accounts_ok.
  - done.
  - by rewrite after_reads by apply dashboard_reads.
  - unfold accounts_ok, lock_implies_threshold. by rewrite add_users.
  - unfold accounts_ok, lock_implies_threshold. by rewrite delete_users.
  - unfold accounts_ok, lock_implies_threshold. by rewrite edit_users.
  - unfold accounts_ok, lock_implies_threshold. by rewrite set_budget_users.
  - unfold accounts_ok, lock_implies_threshold. by rewrite clear_month_users.
  - unfold accounts_ok, lock_implies_threshold. by rewrite clear_all_users.
  - by rewrite after_reads by apply export_pdf_reads.
Qed.

Lemma run_accounts_ok cs w : accounts_ok (db w) → accounts_ok (db (run w cs)).
Proof.
  revert w. induction cs as [|c cs IH]; intros w Hok; [done|].
  cbn. apply IH. by apply step_accounts_ok.
Qed.

Lemma reachable_accounts_ok w : reachable w → accounts_ok (db w).
Proof.
  intros [cs <-]. apply run_accounts_ok. split; [constructor|].
  intros r Hin. by apply elem_of_nil in Hin.
Qed.

End Frames.

(** C10.  In every world the application can reach, an account with a
    stored lock has its counter at the threshold or above, whatever the
    clock says: nothing resets the counter when the window runs out.
    So when the window has run out (lock_time + 5 minutes <= now), a
    single submission of a wrong password makes the counter exceed the
    threshold again: the handler writes counter + 1 and a new lock
    timestamp, the clock reading of that request, and flashes the
    locked-account message. *)
Theorem expired_lock_relocks `{Runtime} w u user lock now now' p :
  reachable w →
  select_user u (db w) = Some user →
  lock_time user = Some lock →
  lock + timedelta_minutes LOCK_MINUTES ≤ now →
  check_password_hash (password user) p = false →
  MAX_LOGIN_ATTEMPTS ≤ attempts user ∧
  login now now' (credentials u p) w =
    Return (redirect "/",
            World (update_user_lock (attempts user + 1) (now_str now') u (db w))
                  (Session (session_user (sess w))
                           (flashes (sess w) ++ [AccountLocked]))) ∧
  select_user u (update_user_lock (attempts user + 1) (now_str now') u (db w)) =
    Some (UserRow (user_id user) (username user) (password user)
                  (attempts user + 1) (Some (now_str now'))).
Proof.
  intros Hreach Hsel Hlock Hexp Hchk.
  apply reachable_accounts_ok in Hreach as [_ Hinv].
  assert (MAX_LOGIN_ATTEMPTS ≤ attempts user) as Hge.
  { apply Hinv; [by eapply select_user_elem|by rewrite Hlock]. }
  split; [done|]. split.
  - eapply login_wrong_locks; [done..|by eapply lock_active_expired|done|lia].
  - rewrite select_user_lock, Hsel. cbn.
    by rewrite bool_decide_eq_true_2 by by eapply select_user_username.
Qed.

(** ** C5: one budget row per identity and month *)

Section Budgets.
Context `{Runtime}.

Lemma budget_count_set u m a d :
  budget_count u m (insert_budget u m a (delete_budget u m d)) = 1%nat.
Proof.
  unfold budget_count, insert_budget, delete_budget. cbn.
  rewrite List.filter_app, length_app. cbn.
  assert (budget_is u m (BudgetRow (seq_budgets d + 1) u m (real_affinity a)) = true) as ->.
  { unfold budget_is. cbn. by rewrite !bool_decide_eq_true_2. }
  cbn. rewrite (proj2 (List.length_zero_iff_nil _)); [done|].
  induction (budgets d) as [|b bs IH]; [done|]. cbn.
  destruct (budget_is u m b) eqn:Hb; cbn; [done|by rewrite Hb].
Qed.

Lemma budget_count_set_other u m u' m' a d :
  (u', m') ≠ (u, m) →
  budget_count u m (insert_budget u' m' a (delete_budget u' m' d)) = budget_count u m d.
Proof.
  intros Hne. unfold budget_count, insert_budget, delete_budget. cbn.
  rewrite List.filter_app, length_app. cbn.
  assert (budget_is u m (BudgetRow (seq_budgets d + 1) u' m' (real_affinity a)) = false) as ->.
  { unfold budget_is. cbn. repeat case_bool_decide; naive_solver. }
  cbn. rewrite Nat.add_0_r. f_equal.
  induction (budgets d) as [|b bs IH]; [done|]. cbn.
  destruct (budget_is u' m' b) eqn:Hb'; cbn.
  - assert (budget_is u m b = false) as ->; [|done].
    unfold budget_is in *. repeat case_bool_decide; naive_solver.
  - destruct (budget_is u m b); cbn; by rewrite IH.
Qed.

(** What a set-budget request leaves behind. *)
Lemma set_budget_after u req w :
  session_user (sess w) = Some u →
  after (set_budget req) w =
    match json_month (json req), json_amount (json req) with
    | Some m, Some a => World (insert_budget u m a (delete_budget u m (db w))) (sess w)
    | _, _ => w
    end.
Proof.
  intros Hs. unfold after, set_budget. run_handler. rewrite Hs.
  destruct (json_month (json req)); cbn; [|done].
  by destruct (json_amount (json req)).
Qed.

Lemma set_budget_session u req w :
  session_user (sess w) = Some u →
  session_user (sess (after (set_budget req) w)) = Some u.
Proof.
  intros Hs. rewrite (set_budget_after u) by done.
  by destruct (json_month (json req)), (json_amount (json req)).
Qed.

Lemma set_budgets_session u reqs w :
  session_user (sess w) = Some u →
  session_user (sess (foldl (λ w r, after (set_budget r) w) w reqs)) = Some u.
Proof.
  revert w. induction reqs as [|r reqs IH]; intros w Hs; [done|].
  cbn. apply IH. by apply set_budget_session.
Qed.

Lemma set_budget_at_most_one u req w :
  session_user (sess w) = Some u →
  (∀ u' m', (budget_count u' m' (db w) ≤ 1)%nat) →
  ∀ u' m', (budget_count u' m' (db (after (set_budget req) w)) ≤ 1)%nat.
Proof.
  intros Hs Hone u' m'. rewrite (set_budget_after u) by done.
  destruct (json_month (json req)) as [m|]; [|done].
  destruct (json_amount (json req)) as [a|]; [|done]. cbn [db].
  destruct (decide ((u, m) = (u', m'))) as [[= <- <-]|Hne].
  - by rewrite budget_count_set.
  - by rewrite budget_count_set_other.
Qed.

End Budgets.

(** A well-formed request of a session is acknowledged, and what it
    leaves is the DELETE followed by the INSERT. *)
Lemma set_budget_well_formed `{Runtime} u req w :
  session_user (sess w) = Some u →
  well_formed_budget req →
  set_budget req w = Return (jsonify_status_ok, after (set_budget req) w).
Proof.
  intros Hs [[m Hm] (a & Ha & _)]. unfold after, set_budget. run_handler.
  by rewrite Hs, Hm, Ha.
Qed.

Lemma set_budgets_well_formed `{Runtime} u reqs w :
  session_user (sess w) = Some u →
  Forall well_formed_budget reqs →
  set_budgets reqs w =
    Return (replicate (length reqs) jsonify_status_ok,
            foldl (λ w r, after (set_budget r) w) w reqs).
Proof.
  intros Hs Hwf. revert w Hs.
  induction Hwf as [|req reqs Hreq _ IH]; intros w Hs; [done|].
  cbn [set_budgets length replicate foldl].
  unfold mbind, M_bind at 1. rewrite (set_budget_well_formed u) by done.
  unfold M_bind at 1. rewrite IH by by apply set_budget_session.
  done.
Qed.

(** C5.  Take any database, a session bound to an identity, and any
    sequence of well-formed set-budget requests of that session (each
    with a month text and an amount SQLite can bind), of which at least
    one carries the month [m].  Every request of the sequence is
    acknowledged with the status "ok", and after the sequence exactly one
    budget row exists for the identity and [m], however many rows the
    pair had before and however often it was set.  If moreover no pair
    had two rows at the start, no pair has two rows at the end. *)
Theorem set_budget_single_row `{Runtime} w u m reqs :
  session_user (sess w) = Some u →
  Forall well_formed_budget reqs →
  (∃ req, req ∈ reqs ∧ json_month (json req) = Some m) →
  ∃ w',
    set_budgets reqs w = Return (replicate (length reqs) jsonify_status_ok, w') ∧
    length (List.filter (λ b, bool_decide (budget_user b = u) &&
                              bool_decide (month b = m))
                        (budgets (db w'))) = 1%nat ∧
    ((∀ u' m', (budget_count u' m' (db w) ≤ 1)%nat) →
     ∀ u' m', (budget_count u' m' (db w') ≤ 1)%nat).
Proof.
  intros Hs Hwf Hset. eexists. split; [by eapply set_budgets_well_formed|].
  change (length _) with
    (budget_count u m (db (foldl (λ w r, after (set_budget r) w) w reqs))).
  split.
  - induction reqs as [|r reqs IH] using rev_ind.
    { destruct Hset as (? & []%elem_of_nil & _). }
    apply Forall_app in Hwf as [Hwf [[[m' Hm] (a & Ha & _)] _]%Forall_cons].
    rewrite foldl_app. cbn.
    pose proof (set_budgets_session u reqs w Hs) as Hs'.
    rewrite (set_budget_after u) by done. rewrite Hm, Ha. cbn [db].
    destruct (decide (m' = m)) as [->|Hne]; [by apply budget_count_set|].
    rewrite budget_count_set_other by congruence. apply IH; [done|].
    destruct Hset as (req & [Hin| ->%list_elem_of_singleton]%elem_of_app & Hm');
      [by eauto|congruence].
  - intros Hone. revert w Hs Hone. clear Hset Hwf.
    induction reqs as [|r reqs IH]; intros w Hs Hone; [done|].
    cbn. apply IH; [by apply set_budget_session|by eapply set_budget_at_most_one].
Qed.

(** ** C6: edits and deletes of absent or foreign rows *)

Section Expenses.
Context `{Runtime}.

Lemma with_expenses_same d : with_expenses (expenses d) (seq_expenses d) d = d.
Proof. by destruct d. Qed.

Lemma expense_is_absent id user (es : list expense_row) :
  (∀ e, e ∈ es → expense_id e = id → expense_user e ≠ user) →
  Forall (λ e, expense_is id user e = false) es.
Proof.
  intros Habs. apply Forall_forall. intros e Hin.
  unfold expense_is. repeat case_bool_decide; try done.
  by destruct (Habs e Hin).
Qed.

Lemma filter_none_matches {A} (f : A → bool) (l : list A) :
  Forall (λ x, f x = false) l → List.filter (λ x, negb (f x)) l = l.
Proof. induction 1 as [|x l Hx _ IH]; [done|]. cbn. by rewrite Hx, IH. Qed.



Lemma delete_expense_absent id user d :
  (∀ e, e ∈ expenses d → expense_id e = id → expense_user e ≠ user) →
  delete_expense id user d = d.
Proof.
  intros Habs%expense_is_absent. unfold delete_expense.
  rewrite filter_none_matches by done. apply with_expenses_same.
Qed.



End Expenses.


(** ** C7: the category totals add up to the total *)

Section Totals.
Context `{Runtime}.

Local Open Scope Qc_scope.

Lemma sum_values_comm (j1 j2 : string) (z1 z2 y : Qc) :
  y + z2 + z1 = y + z1 + z2.
Proof. ring. Qed.

Lemma sum_values_add d k v :
  sum_values (defaultdict_add d k v) = sum_values d + v.
Proof.
  unfold sum_values, defaultdict_add.
  destruct (d !! k) as [x|] eqn:Hk; cbn.
  - rewrite <- insert_delete_eq.
    rewrite map_fold_insert_L;
      [|intros; apply sum_values_comm; done|apply lookup_delete_eq].
    rewrite (map_fold_delete_L _ _ k x d);
      [|intros; apply sum_values_comm; done|done].
    ring.
  - rewrite map_fold_insert_L; [|intros; apply sum_values_comm; done|done].
    ring.
Qed.

Lemma total_of_from acc es :
  foldl (λ acc e, acc + parse_float_safe (amount e)) acc es = acc + total_of es.
Proof.
  unfold total_of. revert acc.
  induction es as [|e es IH]; intros acc; cbn; [ring|].
  rewrite IH, (IH (0 + _)). ring.
Qed.

(** The two loops over a [defaultdict], as one accumulation by a key. *)
Lemma accumulate_sum (key : expense_row → string) es d :
  sum_values
    (foldl (λ m e, defaultdict_add m (key e) (parse_float_safe (amount e))) d es)
  = sum_values d + total_of es.
Proof.
  revert d. induction es as [|e es IH]; intros d; cbn.
  - unfold total_of. cbn. ring.
  - rewrite IH, sum_values_add. unfold total_of. cbn.
    rewrite (total_of_from (0 + _)). unfold total_of. ring.
Qed.

Lemma filter_no_key (key : expense_row → string) k es :
  has_key key k es = false →
  List.filter (λ e, bool_decide (key e = k)) es = [].
Proof.
  induction es as [|e es IH]; [done|]. cbn.
  destruct (bool_decide (key e = k)); [done|]. exact IH.
Qed.

(** The entry of a key after the accumulation: untouched when no row has
    the key, else the old entry (or 0) plus the amounts of the rows of
    that key, in order. *)
Lemma accumulate_lookup (key : expense_row → string) es d k :
  foldl (λ m e, defaultdict_add m (key e) (parse_float_safe (amount e))) d es !! k
  = if has_key key k es
    then Some (foldl (λ acc e, acc + parse_float_safe (amount e))
                     (default 0 (d !! k))
                     (List.filter (λ e, bool_decide (key e = k)) es))
    else d !! k.
Proof.
  revert d. induction es as [|e es IH]; intros d; [done|].
  cbn [foldl has_key existsb List.filter]. rewrite IH. fold (has_key key k es).
  unfold defaultdict_add. case_bool_decide as Hk; cbn [orb].
  - subst k. rewrite lookup_insert_eq. cbn [default foldl].
    destruct (has_key key (key e) es) eqn:Hes; [done|].
    by rewrite filter_no_key.
  - by rewrite lookup_insert_ne.
Qed.

Lemma grouped_lookup (key : expense_row → string) es k :
  foldl (λ m e, defaultdict_add m (key e) (parse_float_safe (amount e))) ∅ es !! k
  = if has_key key k es then Some (group_total key k es) else None.
Proof. by rewrite accumulate_lookup, lookup_empty. Qed.

(** *** What the dashboard hands to its template *)

Lemma dashboard_renders now req w user ctx w' :
  session_user (sess w) = Some user →
  dashboard now req w = Return (render_dashboard ctx, w') →
  let working := select_expenses user (truthy_arg (args req !! "month")) (db w) in
  let budget :=
    from_option budget_amount PyNone
      (select_budget user (effective_month now req) (db w)) in
  w' = w ∧
  budget_alert budget (total_of working) w = Return (ctx_budget_alert ctx, w) ∧
  ctx = DashboardContext working (total_of working) (category_totals working)
          (monthly_totals (select_expenses user None (db w)))
          budget (ctx_budget_alert ctx) (args req !! "month") user.
Proof.
  intros Hs. unfold dashboard. run_handler. rewrite Hs.
  fold (effective_month now req).
  destruct (budget_alert _ _ w) as [[alert w1]|] eqn:Hal; [|done].
  intros [= <- <-]. cbn [ctx_budget_alert].
  assert (w1 = w) as ->.
  { unfold budget_alert in Hal. revert Hal. run_handler.
    destruct (py_truthy _); [|by intros [= _ <-]].
    destruct (from_option _ _ _); by try intros [= _ <-]. }
  done.
Qed.

End Totals.

(** *** The two loops over any addition *)

Section Sums.
Context {N : Type} (zero : N) (add : N → N → N).

(** The entry of a key after the loop [d[k] += x]: untouched when no row
    has the key, else the amounts of the rows of that key added, in
    order, to the old entry (or to the zero).  No law of the addition is
    used. *)
Lemma group_with_lookup_from (rows : list (string * N)) (d : gmap string N) k :
  foldl (λ d r, <[r.1 := add (default zero (d !! r.1)) r.2]> d) d rows !! k
  = if existsb (λ r, bool_decide (r.1 = k)) rows
    then Some (foldl add (default zero (d !! k))
                     (map snd (List.filter (λ r, bool_decide (r.1 = k)) rows)))
    else d !! k.
Proof.
  revert d. induction rows as [|r rows IH]; intros d; [done|].
  cbn [foldl existsb List.filter]. rewrite IH.
  case_bool_decide as Hk; cbn [orb].
  - subst k. rewrite lookup_insert_eq. cbn [default map foldl].
    destruct (existsb _ rows) eqn:Hex; [done|].
    assert (List.filter (λ r0 : string * N, bool_decide (r0.1 = r.1)) rows = []) as ->;
      [|done].
    clear IH. induction rows as [|r' rows IH]; [done|]. cbn in Hex |- *.
    destruct (bool_decide (r'.1 = r.1)); [done|]. by apply IH.
  - by rewrite lookup_insert_ne.
Qed.

Context `{!Assoc (=) add, !Comm (=) add, !LeftId (=) zero add}.

Lemma sum_values_with_swap (z1 z2 y : N) : add (add y z2) z1 = add (add y z1) z2.
Proof. by rewrite <- !(assoc add), (comm add z2). Qed.

Lemma sum_values_with_add d k v :
  sum_values_with zero add (<[k := add (default zero (d !! k)) v]> d)
  = add (sum_values_with zero add d) v.
Proof.
  unfold sum_values_with.
  destruct (d !! k) as [x|] eqn:Hk; cbn [default].
  - rewrite <- insert_delete_eq.
    rewrite map_fold_insert_L;
      [|intros; apply sum_values_with_swap|apply lookup_delete_eq].
    rewrite (map_fold_delete_L _ _ k x d);
      [|intros; apply sum_values_with_swap|done].
    by rewrite (assoc add).
  - rewrite map_fold_insert_L; [|intros; apply sum_values_with_swap|done].
    by rewrite (left_id zero add).
Qed.

Lemma sum_values_with_group_from rows d :
  sum_values_with zero add
    (foldl (λ d r, <[r.1 := add (default zero (d !! r.1)) r.2]> d) d rows)
  = foldl add (sum_values_with zero add d) (map snd rows).
Proof.
  revert d. induction rows as [|r rows IH]; intros d; [done|].
  cbn [foldl map]. by rewrite IH, sum_values_with_add.
Qed.

End Sums.

(** The loops of the dashboard are these, over the rationals. *)
Lemma total_of_sum_with `{Runtime} es :
  total_of es = sum_with 0%Qc Qcplus (map snd (category_amounts es)).
Proof.
  unfold total_of, sum_with, category_amounts. generalize 0%Qc.
  induction es as [|e es IH]; intros acc; [done|]. cbn. apply IH.
Qed.

Lemma category_totals_group_with `{Runtime} es :
  category_totals es = group_with 0%Qc Qcplus (category_amounts es).
Proof.
  unfold category_totals, group_with, category_amounts.
  generalize (∅ : gmap string Qc).
  induction es as [|e es IH]; intros d; [done|]. cbn. apply IH.
Qed.

(** C7, as the code has it.  The sum and the category loop of the
    dashboard, run with any addition on the amounts read from the rows.
    Whatever the
    addition, the value of a category is the sum, from zero and in the
    order of the rows, of the amounts of the rows of that category, and
    a category without rows has no entry.  When the addition is exact
    (associative and commutative, with zero neutral), the values of the
    mapping add up to the total of the same rows.  The loops of the model
    are these two, over the rationals, with [parse_float_safe] reading
    the amounts.  The additions of binary64 are not associative, and
    there the two sides differ by rounding on some working sets. *)
Theorem category_totals_sum_exact `{Runtime} {N : Type} (zero : N) (add : N → N → N)
    (read : pyval → N) (es : list expense_row) :
  let rows := map (λ e, (category e, read (amount e))) es in
  (∀ k, group_with zero add rows !! k =
        if existsb (λ e, bool_decide (category e = k)) es
        then Some (sum_with zero add
                     (map (λ e, read (amount e))
                          (List.filter (λ e, bool_decide (category e = k)) es)))
        else None) ∧
  (Assoc (=) add → Comm (=) add → LeftId (=) zero add →
   sum_values_with zero add (group_with zero add rows)
     = sum_with zero add (map (λ e, read (amount e)) es)) ∧
  (total_of es = sum_with 0%Qc Qcplus (map (λ e, parse_float_safe (amount e)) es) ∧
   category_totals es
     = group_with 0%Qc Qcplus (map (λ e, (category e, parse_float_safe (amount e))) es)).
Proof.
  intros rows. split; [|split; [intros Hassoc Hcomm Hid|]].
  - intros k. unfold group_with, sum_with. rewrite group_with_lookup_from.
    rewrite lookup_empty. cbn [default]. subst rows.
    assert (∀ l : list expense_row,
              existsb (λ r : string * N, bool_decide (r.1 = k))
                      (map (λ e, (category e, read (amount e))) l)
              = existsb (λ e, bool_decide (category e = k)) l) as ->.
    { induction l as [|e l IH]; [done|]. cbn. by rewrite IH. }
    assert (∀ l : list expense_row,
              map snd (List.filter (λ r : string * N, bool_decide (r.1 = k))
                         (map (λ e, (category e, read (amount e))) l))
              = map (λ e, read (amount e))
                    (List.filter (λ e, bool_decide (category e = k)) l)) as ->; [|done].
    induction l as [|e l IH]; [done|]. cbn.
    destruct (bool_decide (category e = k)); cbn; by rewrite IH.
  - pose proof (sum_values_with_group_from zero add rows ∅) as Hsum.
    unfold group_with. rewrite Hsum.
    unfold sum_values_with, sum_with. rewrite map_fold_empty.
    unfold rows. by rewrite map_map.
  - split.
    + rewrite total_of_sum_with. unfold category_amounts. by rewrite map_map.
    + apply category_totals_group_with.
Qed.

(** On the page, in the exact arithmetic of this model: what the
    dashboard passes as [category_amounts] adds up to what it passes as
    [total]. *)
Corollary dashboard_categories_sum `{Runtime} now req w user ctx w' :
  session_user (sess w) = Some user →
  dashboard now req w = Return (render_dashboard ctx, w') →
  sum_values (ctx_category_amounts ctx) = ctx_total ctx.
Proof.
  intros Hs Hd. destruct (dashboard_renders _ _ _ _ _ _ Hs Hd) as (_ & _ & ->).
  cbn [ctx_category_amounts ctx_total]. unfold category_totals.
  rewrite accumulate_sum. unfold sum_values. rewrite map_fold_empty. ring.
Qed.


(** ** C8: the monthly totals ignore the month filter *)

Section Pages.
Context `{Runtime}.

(** The SELECT of the dashboard, as filters of the table in rowid order. *)
Lemma select_expenses_filters user mon d :
  select_expenses user mon d =
    match mon with
    | Some m =>
        List.filter (λ e, bool_decide (sqlite_strftime_Ym (date e) = Some m))
          (List.filter (λ e, bool_decide (expense_user e = user)) (expenses d))
    | None => List.filter (λ e, bool_decide (expense_user e = user)) (expenses d)
    end.
Proof.
  unfold select_expenses, expense_matches.
  induction (expenses d) as [|e es IH]; [by destruct mon|].
  destruct mon as [m|]; cbn in IH |- *.
  - destruct (bool_decide (expense_user e = user)); cbn; [|done].
    destruct (bool_decide (_ = Some m)); by rewrite IH.
  - rewrite andb_true_r. by rewrite IH.
Qed.

(** With a session, the dashboard renders the page below and leaves the
    world as it was, unless the budget of the effective month is a
    non-empty text, on which the comparison raises. *)
Lemma dashboard_outcome now req w user :
  session_user (sess w) = Some user →
  let working := select_expenses user (truthy_arg (args req !! "month")) (db w) in
  let row := select_budget user (effective_month now req) (db w) in
  (∃ alert,
      dashboard now req w =
        Return (render_dashboard
                  (DashboardContext working (total_of working) (category_totals working)
                     (monthly_totals (select_expenses user None (db w)))
                     (from_option budget_amount PyNone row) alert
                     (args req !! "month") user), w))
  ∨ (dashboard now req w = Raise TypeError ∧
     ∃ r s, row = Some r ∧ budget_amount r = PyStr s ∧ s ≠ "").
Proof.
  intros Hs working row. unfold dashboard, budget_alert. run_handler. rewrite Hs.
  fold (effective_month now req). fold working. fold row.
  destruct row as [r|]; cbn [from_option]; [|left; by eexists].
  destruct (budget_amount r) as [|b|s] eqn:Hb; cbn [py_truthy].
  - left. by eexists.
  - destruct (negb _); left; by eexists.
  - unfold str_truthy. case_bool_decide as Hz; cbn [negb]; [left; by eexists|].
    right. split; [done|]. by exists r, s.
Qed.

(** The entry of a key in a mapping built by one of the two loops. *)
Lemma grouped_lookup_amounts (key : expense_row → string) es k :
  foldl (λ m e, defaultdict_add m (key e) (parse_float_safe (amount e))) ∅ es !! k
  = if existsb (λ e, bool_decide (key e = k)) es
    then Some (sum_with 0%Qc Qcplus
                 (map (λ e, parse_float_safe (amount e))
                      (List.filter (λ e, bool_decide (key e = k)) es)))
    else None.
Proof.
  rewrite grouped_lookup. unfold has_key. destruct (existsb _ es); [|done].
  unfold group_total. rewrite total_of_sum_with. unfold category_amounts.
  by rewrite map_map.
Qed.

(** [s[:n]] splits the text at a character boundary, after [n]
    characters or at the end of the text. *)
Lemma take_chars_spec n s :
  ∃ rest,
    s = take_chars n s +:+ rest ∧
    char_count (take_chars n s) = (n `min` char_count s)%nat ∧
    (rest = "" ∨ ∃ c rest', rest = String c rest' ∧ continuation_byte c = false).
Proof.
  revert n. induction s as [|c s IH]; intros n.
  { exists "". cbn. split; [done|]. split; [by destruct n|by left]. }
  cbn [take_chars char_count]. destruct (continuation_byte c) eqn:Hc.
  - destruct (IH n) as (rest & Hs & Hn & Hrest). exists rest.
    split; [exact (f_equal (String c) Hs)|]. split; [|done].
    cbn [char_count]. by rewrite Hc.
  - destruct n as [|n].
    + exists (String c s). cbn. split; [done|]. split; [done|]. right. by eauto.
    + destruct (IH n) as (rest & Hs & Hn & Hrest). exists rest.
      split; [exact (f_equal (String c) Hs)|]. split; [|done].
      cbn [char_count]. rewrite Hc, Hn. by rewrite Nat.succ_min_distr.
Qed.

End Pages.

(** C8.  For a session bound to an identity, write [owned] for the rows
    of the expenses table that belong to the identity, in rowid order,
    and [working] for those of them whose date SQLite formats to the
    month of the filter, or for all of them when the request has no
    (or an empty) filter.  The dashboard renders its page and leaves the
    world as it was, unless the budget of the effective month is a
    non-empty text, when it raises [TypeError].  On the page, the rows
    shown are [working], [total] is the sum of their amounts and
    [category_amounts] holds, per category of [working], the sum of the
    amounts of its rows; [monthly_totals] holds, per key, the sum of the
    amounts of the rows of [owned] whose date has that key as its first
    7 characters, whatever the filter.  So any two pages rendered on
    the same world, with different filters or with none, carry the same
    [monthly_totals].  The first 7 characters of a text are the text cut
    at a character boundary after 7 characters, or the whole text when
    it has fewer.  Amounts are read by [parse_float_safe] and added from
    0 in the order of the rows. *)
Theorem monthly_totals_ignore_filter `{Runtime} w user now req :
  session_user (sess w) = Some user →
  let owned := List.filter (λ e, bool_decide (expense_user e = user)) (expenses (db w)) in
  let working :=
    match truthy_arg (args req !! "month") with
    | Some m => List.filter (λ e, bool_decide (sqlite_strftime_Ym (date e) = Some m)) owned
    | None => owned
    end in
  let total (es : list expense_row) :=
    sum_with 0%Qc Qcplus (map (λ e, parse_float_safe (amount e)) es) in
  ((∃ ctx,
       dashboard now req w = Return (render_dashboard ctx, w) ∧
       ctx_expenses ctx = working ∧
       ctx_total ctx = total working ∧
       (∀ k, ctx_category_amounts ctx !! k =
             if existsb (λ e, bool_decide (category e = k)) working
             then Some (total (List.filter (λ e, bool_decide (category e = k)) working))
             else None) ∧
       (∀ k, ctx_monthly_totals ctx !! k =
             if existsb (λ e, bool_decide (first7 (date e) = k)) owned
             then Some (total (List.filter (λ e, bool_decide (first7 (date e) = k)) owned))
             else None))
   ∨ (dashboard now req w = Raise TypeError ∧
      ∃ r s, select_budget user (effective_month now req) (db w) = Some r ∧
             budget_amount r = PyStr s ∧ s ≠ "")) ∧
  (∀ now1 req1 ctx1 w1 now2 req2 ctx2 w2,
      dashboard now1 req1 w = Return (render_dashboard ctx1, w1) →
      dashboard now2 req2 w = Return (render_dashboard ctx2, w2) →
      ctx_monthly_totals ctx1 = ctx_monthly_totals ctx2) ∧
  (∀ d, ∃ rest,
      d = first7 d +:+ rest ∧
      char_count (first7 d) = (7 `min` char_count d)%nat ∧
      (rest = "" ∨ ∃ c rest', rest = String c rest' ∧ continuation_byte c = false)).
Proof.
  intros Hs owned working total. split; [|split].
  - destruct (dashboard_outcome now req w user Hs) as [[alert Hd]|Hraise];
      [left|by right].
    eexists. split; [exact Hd|]. cbn [ctx_expenses ctx_total ctx_category_amounts
                                       ctx_monthly_totals].
    rewrite !select_expenses_filters. fold owned. fold working.
    split; [done|]. split; [|split].
    + unfold total. rewrite total_of_sum_with. unfold category_amounts.
      by rewrite map_map.
    + intros k. apply grouped_lookup_amounts.
    + intros k. apply (grouped_lookup_amounts (λ r, first7 (date r))).
  - intros now1 req1 ctx1 w1 now2 req2 ctx2 w2 Hd1 Hd2.
    destruct (dashboard_renders _ _ _ _ _ _ Hs Hd1) as (_ & _ & ->).
    by destruct (dashboard_renders _ _ _ _ _ _ Hs Hd2) as (_ & _ & ->).
  - intros d. apply take_chars_spec.
Qed.

(** ** C3: the budget alert *)

(** C3, as the code has it.  For a session bound to an identity, the
    dashboard either renders its page with the world unchanged, or raises
    [TypeError] because the budget row of the effective month holds a
    non-empty text.  On the rendered page the alert is true exactly when
    a budget row exists for the identity and the effective month, the
    amount of the first such row is a number other than zero, and the
    total of the working set (the rows matching the month filter, or all
    rows of the identity when the request has no filter) is greater than
    or equal to that amount. *)
Theorem budget_alert_iff `{Runtime} w user now req :
  session_user (sess w) = Some user →
  let working := select_expenses user (truthy_arg (args req !! "month")) (db w) in
  let row := select_budget user (effective_month now req) (db w) in
  (∃ ctx,
      dashboard now req w = Return (render_dashboard ctx, w) ∧
      (ctx_budget_alert ctx = true ↔
       ∃ r b, row = Some r ∧ budget_amount r = PyNum b ∧ b ≠ 0%Qc ∧
              (b ≤ total_of working)%Qc))
  ∨ (dashboard now req w = Raise TypeError ∧
     ∃ r s, row = Some r ∧ budget_amount r = PyStr s ∧ s ≠ "").
Proof.
  intros Hs working row. unfold dashboard, budget_alert. run_handler. rewrite Hs.
  fold (effective_month now req). fold working. fold row.
  destruct row as [r|]; cbn [from_option].
  - destruct (budget_amount r) as [|b|s] eqn:Hb; cbn [py_truthy].
    + left. eexists. split; [done|]. cbn. split; [done|].
      intros (? & ? & [= <-] & ? & _); congruence.
    + case_bool_decide as Hz; cbn [negb].
      * left. eexists. split; [done|]. cbn. split; [done|].
        intros (? & ? & [= <-] & Hb' & Hnz & _). congruence.
      * left. eexists. split; [done|]. cbn. split.
        -- intros Hle%bool_decide_eq_true. by exists r, b.
        -- intros (? & ? & [= <-] & Hb' & _ & Hle).
           apply bool_decide_eq_true. congruence.
    + unfold str_truthy. case_bool_decide as Hz; cbn [negb].
      * left. eexists. split; [done|]. cbn. split; [done|].
        intros (? & ? & [= <-] & ? & _); congruence.
      * right. split; [done|]. by exists r, s.
  - left. eexists. split; [done|]. cbn. split; [done|].
    by intros (? & ? & [=] & _).
Qed.

(** ** C9: add parses the amount, edit hands the text to the column *)

(** C9, as the code has it.  Take a session, an id of a URL that
    SQLite can bind (below 2^63) and a submitted form with its fields
    present, whose
    amount text [float] does not read as nan or an infinity.  [add]
    appends one row whose amount is the number [float] reads from the
    text, or 0 when [float] rejects it, and raises nothing.  [edit]
    hands the text itself, unparsed and unchecked, to the UPDATE of the
    rows with that id and owner; the column, declared REAL, then holds
    the number SQLite reads from the text when the text is a numeric
    literal, and the text as it was submitted when it is not. *)
Theorem add_parses_edit_binds_text `{Runtime} w user id req raw cat dt :
  session_user (sess w) = Some user →
  method req = POST →
  form req !! "amount" = Some raw →
  form req !! "category" = Some cat →
  form req !! "date" = Some dt →
  form req !! "custom_category" = None →
  py_float_special raw = false →
  url_id id →
  (∃ w1,
      add req w = Return (redirect "/dashboard", w1) ∧
      expenses (db w1) =
        expenses (db w) ++
        [ExpenseRow (seq_expenses (db w) + 1) user
                    (PyNum (match py_float raw with Some q => q | None => 0%Qc end))
                    cat dt]) ∧
  (∃ w2,
      edit id req w = Return (redirect "/dashboard", w2) ∧
      expenses (db w2) =
        map (λ e, if bool_decide (expense_id e = id) &&
                     bool_decide (expense_user e = user)
                  then ExpenseRow (expense_id e) (expense_user e)
                                  (match sqlite_numeric raw with
                                   | Some q => PyNum q
                                   | None => PyStr raw
                                   end) cat dt
                  else e) (expenses (db w))).
Proof.
  intros Hs Hm Hamt Hcat Hdt Hcustom _ _. split.
  - unfold add. run_handler. rewrite Hs, Hm, Hamt. cbn. rewrite Hcat. cbn.
    rewrite Hdt. cbn. eexists. split; [done|]. cbn.
    by destruct (py_float raw).
  - unfold edit, edit_category. run_handler. rewrite Hs, Hm, Hamt. cbn.
    rewrite Hcustom. cbn. rewrite Hcat. cbn. rewrite Hdt. cbn.
    eexists. split; [done|]. done.
Qed.

(** ** C1: the session gate *)

(** The handlers that test the session: without one they redirect to the
    login page and leave the world as it was. *)
Lemma gated_handlers_redirect `{Runtime} w now id req :
  session_user (sess w) = None →
  dashboard now req w = Return (redirect "/", w) ∧
  add req w = Return (redirect "/", w) ∧
  edit id req w = Return (redirect "/", w) ∧
  export_pdf req w = Return (redirect "/", w).
Proof.
  intros Hs. unfold dashboard, add, edit, export_pdf. run_handler.
  by rewrite Hs.
Qed.

(** C1, where the code departs from it.  [delete], [set_budget],
    [clear_month] and [clear_all] do not test the session: without one
    they raise [KeyError] on [session["user"]] instead of redirecting to
    the login page.  (The world is left as it was: the raise comes before
    any statement runs.) *)
Theorem ungated_handlers_raise `{Runtime} w id req :
  session_user (sess w) = None →
  delete id w = Raise (KeyError "user") ∧
  set_budget req w = Raise (KeyError "user") ∧
  clear_month req w = Raise (KeyError "user") ∧
  clear_all w = Raise (KeyError "user").
Proof.
  intros Hs. unfold delete, set_budget, clear_month, clear_all. run_handler.
  by rewrite Hs.
Qed.

(** * Further properties of the handlers *)

Section Steps.
Context `{Runtime}.

Lemma world_eta w : World (db w) (sess w) = w.
Proof. by destruct w. Qed.

Lemma transition_refl w : transition w w.
Proof. rewrite <- (world_eta w) at 2. apply tr_session. by left. Qed.

Lemma login_transition now now' req w : transition w (after (login now now' req) w).
Proof.
  unfold after, login. destruct (method req); [apply transition_refl|].
  run_handler.
  destruct (form req !! "username") as [u|]; cbn; [|by apply tr_session; left].
  destruct (select_user u (db w)) as [user|] eqn:Hsel; cbn;
    [|by apply tr_session; left].
  destruct (lock_active now user); [by apply tr_session; left|].
  destruct (form req !! "password") as [p|]; [|apply transition_refl].
  destruct (check_password_hash (password user) p).
  - by eapply tr_login.
  - case_bool_decide.
    + by eapply tr_lock.
    + eapply tr_attempts; [done|lia|done].
Qed.

Lemma signup_transition salt req w : transition w (after (signup salt req) w).
Proof.
  unfold after, signup. destruct (method req); [apply transition_refl|].
  run_handler.
  destruct (form req !! "username") as [u|]; cbn; [|apply transition_refl].
  destruct (form req !! "password") as [p|]; cbn; [|apply transition_refl].
  destruct (select_user u (db w)) eqn:Hsel; cbn.
  - by apply tr_session; left.
  - by apply tr_signup.
Qed.

Lemma add_transition req w : transition w (after (add req) w).
Proof.
  unfold after, add. run_handler.
  destruct (session_user (sess w)) as [u|] eqn:Hs; [|apply transition_refl].
  destruct (method req); [apply transition_refl|].
  destruct (form req !! "amount"); cbn; [|apply transition_refl].
  destruct (form req !! "category"); cbn; [|apply transition_refl].
  destruct (form req !! "date"); cbn; [|apply transition_refl].
  by apply tr_add.
Qed.

Lemma delete_transition id w : transition w (after (delete id) w).
Proof.
  unfold after, delete. run_handler.
  destruct (session_user (sess w)) as [u|] eqn:Hs; [|apply transition_refl].
  by apply tr_delete.
Qed.

Lemma edit_transition id req w : transition w (after (edit id req) w).
Proof.
  unfold after, edit, edit_category. run_handler.
  destruct (session_user (sess w)) as [u|] eqn:Hs; [|apply transition_refl].
  destruct (method req); [apply transition_refl|].
  destruct (form req !! "amount"); cbn; [|apply transition_refl].
  destruct (truthy_arg _); cbn.
  - destruct (form req !! "date"); cbn; [|apply transition_refl]. by apply tr_edit.
  - destruct (form req !! "category"); cbn; [|apply transition_refl].
    destruct (form req !! "date"); cbn; [|apply transition_refl]. by apply tr_edit.
Qed.

Lemma set_budget_transition req w : transition w (after (set_budget req) w).
Proof.
  unfold after, set_budget. run_handler.
  destruct (session_user (sess w)) as [u|] eqn:Hs; [|apply transition_refl].
  destruct (json_month (json req)); cbn; [|apply transition_refl].
  destruct (json_amount (json req)); cbn; [|apply transition_refl].
  by apply tr_set_budget.
Qed.

Lemma clear_month_transition req w : transition w (after (clear_month req) w).
Proof.
  unfold after, clear_month. run_handler.
  destruct (session_user (sess w)) as [u|] eqn:Hs; [|apply transition_refl].
  destruct (json_month (json req)); cbn; [|apply transition_refl].
  by apply tr_clear.
Qed.

Lemma clear_all_transition w : transition w (after clear_all w).
Proof.
  unfold after, clear_all. run_handler.
  destruct (session_user (sess w)) as [u|] eqn:Hs; [|apply transition_refl].
  by apply tr_clear.
Qed.

(** Every request is one of the transitions. *)
Lemma step_transition w c : transition w (step w c).
Proof.
  destruct (step_after c w) as [->| ->]; [apply transition_refl|].
  destruct c.1.
  - apply login_transition.
  - apply signup_transition.
  - by apply tr_session; right.
  - rewrite after_reads by apply dashboard_reads. apply transition_refl.
  - apply add_transition.
  - apply delete_transition.
  - apply edit_transition.
  - apply set_budget_transition.
  - apply clear_month_transition.
  - apply clear_all_transition.
  - rewrite after_reads by apply export_pdf_reads. apply transition_refl.
Qed.

(** Induction over the worlds the application reaches. *)
Lemma reachable_invariant (P : world → Prop) :
  P init_world →
  (∀ w w', transition w w' → P w → P w') →
  ∀ w, reachable w → P w.
Proof.
  intros Hinit Hstep w [cs <-].
  assert (∀ w0, P w0 → P (run w0 cs)) as Hrun; [|by apply Hrun].
  induction cs as [|c cs IH]; intros w0 Hw0; [done|].
  cbn. apply IH. eapply Hstep; [apply step_transition|done].
Qed.

End Steps.

(** ** Invariants of the reachable worlds *)

Section TableInvariants.
Context `{Runtime}.

Lemma ids_ok_snoc ids seq : ids_ok ids seq → ids_ok (ids ++ [seq + 1]) (seq + 1).
Proof.
  intros (Hseq & Hsorted & Hbound). split; [lia|]. split.
  - apply StronglySorted_app. repeat split; [|done|repeat constructor].
    intros x y Hx ->%list_elem_of_singleton.
    rewrite Forall_forall in Hbound. specialize (Hbound x Hx). lia.
  - apply Forall_app. split.
    + eapply Forall_impl; [done|]. cbn. intros; lia.
    + apply Forall_singleton. lia.
Qed.

Lemma ids_ok_filter {A} (id : A → Z) (f : A → bool) l seq :
  ids_ok (map id l) seq → ids_ok (map id (List.filter f l)) seq.
Proof.
  intros (Hseq & Hsorted & Hbound). split; [done|].
  induction l as [|x l IH]; [done|].
  cbn in *. apply StronglySorted_cons in Hsorted as [Hx Hsorted].
  apply Forall_cons in Hbound as [Hbx Hbound].
  destruct (IH Hsorted Hbound) as [IHs IHb].
  destruct (f x); [|done]. cbn. split.
  - apply StronglySorted_cons. split; [|done].
    rewrite Forall_forall in Hx |- *. intros i Hi. apply Hx.
    apply list_elem_of_fmap in Hi as (y & -> & Hy%list_elem_of_In).
    apply filter_In in Hy as [Hy%list_elem_of_In _].
    by apply list_elem_of_fmap_2.
  - by constructor.
Qed.

Lemma ids_ok_NoDup ids seq : ids_ok ids seq → NoDup ids.
Proof.
  intros (_ & Hsorted & _).
  induction Hsorted as [|x l _ IH Hx]; constructor; [|done].
  intros Hin. rewrite Forall_forall in Hx. specialize (Hx x Hin). lia.
Qed.

Lemma map_id_update {A} (id : A → Z) (f : A → bool) (g : A → A) (l : list A) :
  (∀ x, id (g x) = id x) →
  map id (map (λ x, if f x then g x else x) l) = map id l.
Proof.
  intros Hg. rewrite map_map. apply map_ext. intros x. by destruct (f x).
Qed.

Lemma users_ids_update (f : user_row → bool) (g : user_row → user_row) l :
  (∀ r, user_id (g r) = user_id r) →
  map user_id (map (λ r, if f r then g r else r) l) = map user_id l.
Proof. apply map_id_update. Qed.

Lemma transition_ids w w' :
  transition w w' → tables_ids_ok (db w) → tables_ids_ok (db w').
Proof.
  intros Htr (Hu & He & Hb).
  destruct Htr; unfold tables_ids_ok; cbn [db]; try done.
  - unfold update_user_reset. cbn. by rewrite users_ids_update.
  - unfold update_user_lock. cbn. by rewrite users_ids_update.
  - unfold update_user_attempts. cbn. by rewrite users_ids_update.
  - unfold insert_user. cbn. rewrite map_app. cbn. split; [|done].
    by apply ids_ok_snoc.
  - unfold insert_expense. cbn. rewrite map_app. cbn. split; [done|]. split; [|done].
    by apply ids_ok_snoc.
  - unfold delete_expense. cbn. split; [done|]. split; [|done].
    by apply ids_ok_filter.
  - unfold update_expense. cbn. by rewrite map_id_update.
  - unfold insert_budget, delete_budget. cbn. rewrite map_app. cbn.
    split; [done|]. split; [done|]. by apply ids_ok_snoc, ids_ok_filter.
  - unfold delete_expenses. cbn. split; [done|]. split; [|done].
    by apply ids_ok_filter.
Qed.

Lemma init_ids : tables_ids_ok (db init_world).
Proof. repeat split; try done; constructor. Qed.

Lemma reachable_ids w : reachable w → tables_ids_ok (db w).
Proof.
  apply (reachable_invariant (λ w, tables_ids_ok (db w))); [apply init_ids|].
  apply transition_ids.
Qed.

(** *** Names, owners, counters *)

Lemma registered_select u d : registered u d ↔ is_Some (select_user u d).
Proof.
  unfold registered, select_user. split.
  - intros (r & -> & Hin)%list_elem_of_fmap.
    destruct (List.find _ (users d)) eqn:Hf; [done|].
    apply list_elem_of_In in Hin. eapply find_none in Hf; [|done].
    by apply bool_decide_eq_false in Hf.
  - intros [r Hf]. apply find_some in Hf as [Hin Hb].
    apply bool_decide_eq_true in Hb as <-.
    by apply list_elem_of_fmap_2, list_elem_of_In.
Qed.

Lemma names_update (g : user_row → user_row) u l :
  (∀ r, username (g r) = username r) →
  map username (map (λ r, if bool_decide (username r = u) then g r else r) l)
  = map username l.
Proof. apply map_username_update. Qed.

(** The names of the accounts after a transition: the same, or one
    more. *)
Lemma transition_names w w' :
  transition w w' →
  map username (users (db w')) = map username (users (db w)) ∨
  ∃ u, map username (users (db w')) = map username (users (db w)) ++ [u].
Proof.
  intros Htr. destruct Htr; cbn [db]; try by left.
  - left. unfold update_user_reset. cbn. by apply names_update.
  - left. unfold update_user_lock. cbn. by apply names_update.
  - left. unfold update_user_attempts. cbn. by apply names_update.
  - right. exists u. unfold insert_user. cbn. by rewrite map_app.
Qed.

Lemma transition_registered w w' u :
  transition w w' → registered u (db w) → registered u (db w').
Proof.
  unfold registered. intros [->|[u' ->]]%transition_names Hin; [done|].
  apply elem_of_app. by left.
Qed.

Lemma transition_owners w w' :
  transition w w' → owners_registered w → owners_registered w'.
Proof.
  intros Htr (Hs & He & Hb).
  assert (∀ u, registered u (db w) → registered u (db w')) as Hreg.
  { intros u. by apply transition_registered. }
  destruct Htr; unfold owners_registered; cbn [db sess] in *.
  - split; [|done]. intros u Hu. destruct H0 as [Heq|Heq]; [|congruence].
    apply Hs. congruence.
  - repeat split; try (intros; apply Hreg; auto; fail).
    intros u' Hu'. apply Hreg, registered_select.
    assert (u' = u) as -> by congruence. by rewrite H0.
  - repeat split; try (intros; apply Hreg; auto; fail).
    intros u' Hu'. apply Hreg, Hs. congruence.
  - repeat split; try (intros; apply Hreg; auto; fail).
    intros u' Hu'. apply Hreg, Hs. congruence.
  - repeat split; try (intros; apply Hreg; auto; fail).
    intros u' Hu'. apply Hreg, Hs. congruence.
  - repeat split; try (intros; apply Hreg; auto; fail).
    + intros u' Hu'. apply Hs. congruence.
    + intros e. unfold insert_expense. cbn.
      intros [Hin| ->%list_elem_of_singleton]%elem_of_app; [by apply He|].
      cbn. by apply Hs.
  - repeat split; try (intros; apply Hreg; auto; fail).
    + intros u' Hu'. apply Hs. congruence.
    + intros e. unfold delete_expense. cbn.
      intros [Hin _]%list_elem_of_In%filter_In. by apply He, list_elem_of_In.
  - repeat split; try (intros; apply Hreg; auto; fail).
    + intros u' Hu'. apply Hs. congruence.
    + intros e. unfold update_expense. cbn.
      intros (e0 & -> & Hin)%list_elem_of_fmap.
      destruct (expense_is id u e0) eqn:Hm; [|by apply He].
      cbn. by apply (He e0).
  - repeat split; try (intros; apply Hreg; auto; fail).
    + intros u' Hu'. apply Hs. congruence.
    + intros b. unfold insert_budget, delete_budget. cbn.
      intros [[Hin _]%list_elem_of_In%filter_In| ->%list_elem_of_singleton]%elem_of_app.
      * by apply Hb, list_elem_of_In.
      * cbn. by apply Hs.
  - repeat split; try (intros; apply Hreg; auto; fail).
    + intros u' Hu'. apply Hs. congruence.
    + intros e. unfold delete_expenses. cbn.
      intros [Hin _]%list_elem_of_In%filter_In. by apply He, list_elem_of_In.
Qed.

Lemma reachable_owners w : reachable w → owners_registered w.
Proof.
  apply (reachable_invariant owners_registered); [|apply transition_owners].
  repeat split; [done|intros ? []%elem_of_nil..].
Qed.

Lemma transition_attempts w w' :
  transition w w' → attempts_nonneg (db w) → attempts_nonneg (db w').
Proof.
  intros Htr Hinv. destruct Htr; unfold attempts_nonneg; cbn [db]; try done.
  - intros r. unfold update_user_reset. cbn.
    intros (r0 & -> & Hin)%list_elem_of_fmap.
    case_bool_decide; [done|by apply Hinv].
  - intros r. unfold update_user_lock. cbn.
    intros (r0 & -> & Hin)%list_elem_of_fmap.
    case_bool_decide; [|by apply Hinv]. cbn.
    pose proof (Hinv user (select_user_elem _ _ _ H0)). lia.
  - intros r. unfold update_user_attempts. cbn.
    intros (r0 & -> & Hin)%list_elem_of_fmap.
    case_bool_decide; [|by apply Hinv]. cbn.
    pose proof (Hinv user (select_user_elem _ _ _ H0)). lia.
  - intros r. unfold insert_user. cbn.
    intros [Hin| ->%list_elem_of_singleton]%elem_of_app; [by apply Hinv|done].
Qed.

Lemma reachable_attempts w : reachable w → attempts_nonneg (db w).
Proof.
  apply (reachable_invariant (λ w, attempts_nonneg (db w)));
    [|apply transition_attempts].
  intros r []%elem_of_nil.
Qed.

Lemma transition_budgets w w' :
  transition w w' →
  (∀ u m, (budget_count u m (db w) ≤ 1)%nat) →
  ∀ u m, (budget_count u m (db w') ≤ 1)%nat.
Proof.
  intros Htr Hone u' m'. destruct Htr; cbn [db]; try apply Hone.
  destruct (decide ((u, mon) = (u', m'))) as [[= <- <-]|Hne].
  - by rewrite budget_count_set.
  - by rewrite budget_count_set_other.
Qed.

Lemma reachable_budgets w :
  reachable w → ∀ u m, (budget_count u m (db w) ≤ 1)%nat.
Proof.
  apply (reachable_invariant (λ w, ∀ u m, (budget_count u m (db w) ≤ 1)%nat));
    [|apply transition_budgets].
  intros u m. cbn. lia.
Qed.

End TableInvariants.

(** X1.  In every world the application reaches, the ids of each table
    are positive, at most the AUTOINCREMENT counter of the table and
    strictly increasing in row order; so no two rows of a table share an
    id, and the id of the next insert, the counter plus one, is held by
    no row, not even after deletions. *)
Theorem reachable_ids_unique `{Runtime} w :
  reachable w →
  tables_ids_ok (db w) ∧
  NoDup (map user_id (users (db w))) ∧
  NoDup (map expense_id (expenses (db w))) ∧
  NoDup (map budget_id (budgets (db w))) ∧
  (∀ e, e ∈ expenses (db w) → expense_id e ≠ seq_expenses (db w) + 1).
Proof.
  intros Hr. pose proof (reachable_ids w Hr) as (Hu & He & Hb).
  split; [done|]. repeat split; try by eapply ids_ok_NoDup.
  intros e Hin. destruct He as (_ & _ & Hbound).
  rewrite Forall_forall in Hbound.
  specialize (Hbound (expense_id e) (list_elem_of_fmap_2 _ _ _ Hin)). lia.
Qed.

(** X2.  In every reachable world the names of the accounts are pairwise
    different, the identity of the session has an account, and so has
    the owner of every expense row and of every budget row. *)
Theorem reachable_owners_have_accounts `{Runtime} w :
  reachable w →
  NoDup (map username (users (db w))) ∧
  (∀ u, session_user (sess w) = Some u → is_Some (select_user u (db w))) ∧
  (∀ e, e ∈ expenses (db w) → is_Some (select_user (expense_user e) (db w))) ∧
  (∀ b, b ∈ budgets (db w) → is_Some (select_user (budget_user b) (db w))).
Proof.
  intros Hr. destruct (reachable_accounts_ok w Hr) as [Hnd _].
  destruct (reachable_owners w Hr) as (Hs & He & Hb).
  split; [done|]. repeat split; intros; apply registered_select; auto.
Qed.

(** X3.  In every reachable world a counter is never negative, and an
    account whose counter is below the threshold carries no lock: at no
    time of the clock does [login] refuse it as locked. *)
Theorem reachable_below_threshold_unlocked `{Runtime} w u user :
  reachable w →
  select_user u (db w) = Some user →
  0 ≤ attempts user ∧
  (attempts user < MAX_LOGIN_ATTEMPTS →
   lock_time user = None ∧ ∀ now, lock_active now user = false).
Proof.
  intros Hr Hsel. pose proof (select_user_elem _ _ _ Hsel) as Hin. split.
  - by apply (reachable_attempts w Hr).
  - intros Hlt. destruct (reachable_accounts_ok w Hr) as [_ Hinv].
    destruct (lock_time user) as [l|] eqn:Hl.
    + specialize (Hinv user Hin). rewrite Hl in Hinv.
      specialize (Hinv (mk_is_Some _ _ eq_refl)). lia.
    + split; [done|]. intros now. by apply lock_active_none.
Qed.

(** X4.  In every reachable world a pair of an identity and a month has
    at most one budget row, whatever requests led there. *)
Theorem reachable_one_budget_per_pair `{Runtime} w u m :
  reachable w → (budget_count u m (db w) ≤ 1)%nat.
Proof. intros Hr. by apply reachable_budgets. Qed.

(** ** Accounts *)

Section AccountProperties.
Context `{Runtime}.

Lemma find_snoc {A} (f : A → bool) (l : list A) (x : A) :
  List.find f (l ++ [x]) =
    match List.find f l with
    | Some y => Some y
    | None => if f x then Some x else None
    end.
Proof.
  induction l as [|y l IH]; cbn; [done|]. by destruct (f y).
Qed.

Lemma select_user_insert u hashp v d :
  select_user v (insert_user u hashp d) =
    match select_user v d with
    | Some r => Some r
    | None => if bool_decide (u = v)
              then Some (UserRow (seq_users d + 1) u hashp 0 None) else None
    end.
Proof. unfold select_user, insert_user. cbn. by rewrite find_snoc. Qed.

Lemma signup_fresh salt req w u p :
  method req = POST →
  form req !! "username" = Some u →
  form req !! "password" = Some p →
  select_user u (db w) = None →
  signup salt req w =
    Return (redirect "/",
            World (insert_user u (generate_password_hash salt p) (db w))
                  (Session (session_user (sess w))
                           (flashes (sess w) ++ [AccountCreated]))).
Proof.
  intros Hm Hu Hp Hsel. unfold signup. rewrite Hm. run_handler.
  rewrite Hu. cbn. rewrite Hp. cbn. by rewrite Hsel.
Qed.

Lemma signup_taken salt req w u p row :
  method req = POST →
  form req !! "username" = Some u →
  form req !! "password" = Some p →
  select_user u (db w) = Some row →
  signup salt req w =
    Return (render_template "signup.html",
            World (db w)
                  (Session (session_user (sess w))
                           (flashes (sess w) ++ [UsernameExists]))).
Proof.
  intros Hm Hu Hp Hsel. unfold signup. rewrite Hm. run_handler.
  rewrite Hu. cbn. rewrite Hp. cbn. by rewrite Hsel.
Qed.

End AccountProperties.

(** X6.  Signing up twice with one name: the first request creates the
    account, the second is answered with the signup page and the
    name-taken message, and the stored row still holds the hash of the
    first password. *)
Theorem signup_twice_keeps_first `{Runtime} w salt1 salt2 u p1 p2 :
  select_user u (db w) = None →
  ∃ w1 w2,
    signup salt1 (credentials u p1) w = Return (redirect "/", w1) ∧
    signup salt2 (credentials u p2) w1 = Return (render_template "signup.html", w2) ∧
    db w2 = db w1 ∧
    last (flashes (sess w2)) = Some UsernameExists ∧
    select_user u (db w2) =
      Some (UserRow (seq_users (db w) + 1) u (generate_password_hash salt1 p1) 0 None).
Proof.
  intros Hsel.
  assert (select_user u (insert_user u (generate_password_hash salt1 p1) (db w))
          = Some (UserRow (seq_users (db w) + 1) u
                          (generate_password_hash salt1 p1) 0 None)) as Hrow.
  { rewrite select_user_insert, Hsel. by rewrite bool_decide_eq_true_2. }
  do 2 eexists. split; [by apply signup_fresh|]. split.
  - by eapply signup_taken.
  - cbn [db sess flashes]. split; [done|]. split; [by rewrite last_snoc|done].
Qed.

(** X7.  Signup, then login: when the name is free and
    [check_password_hash] accepts the password against the hash that
    [generate_password_hash] made of it, the login that follows the
    signup binds the session to the name and redirects to the
    dashboard. *)
Theorem signup_then_login `{Runtime} w salt u p now now' :
  select_user u (db w) = None →
  check_password_hash (generate_password_hash salt p) p = true →
  ∃ w1 w2,
    signup salt (credentials u p) w = Return (redirect "/", w1) ∧
    login now now' (credentials u p) w1 = Return (redirect "/dashboard", w2) ∧
    session_user (sess w2) = Some u.
Proof.
  intros Hsel Hchk. do 2 eexists. split; [by apply signup_fresh|]. split.
  - eapply (login_success _ _ _ _ u p
              (UserRow (seq_users (db w) + 1) u (generate_password_hash salt p) 0 None));
      [done|done|done| |done|exact Hchk].
    cbn [db]. rewrite select_user_insert, Hsel.
    by rewrite bool_decide_eq_true_2.
  - done.
Qed.

(** X8.  [login] changes the identity of the session only by a
    successful check: if the identity after a login differs from the one
    before, the response is the redirect to the dashboard, the submitted
    name has an account that no lock refuses at that time, and
    [check_password_hash] accepted the submitted password against its
    stored hash. *)
Theorem login_binds_session_only_on_success `{Runtime} now now' req w r w' :
  login now now' req w = Return (r, w') →
  session_user (sess w') ≠ session_user (sess w) →
  r = redirect "/dashboard" ∧
  ∃ u p user,
    form req !! "username" = Some u ∧
    form req !! "password" = Some p ∧
    select_user u (db w) = Some user ∧
    lock_active now user = false ∧
    check_password_hash (password user) p = true ∧
    session_user (sess w') = Some u.
Proof.
  unfold login. destruct (method req); [by intros [= _ <-] []|]. run_handler.
  destruct (form req !! "username") as [u|]; cbn; [|by intros [= _ <-] []].
  destruct (select_user u (db w)) as [user|] eqn:Hsel; cbn;
    [|by intros [= _ <-] []].
  destruct (lock_active now user) eqn:Hlock; [by intros [= _ <-] []|].
  destruct (form req !! "password") as [p|]; [|done].
  destruct (check_password_hash (password user) p) eqn:Hchk.
  - intros [= <- <-] _. split; [done|]. by exists u, p, user.
  - by case_bool_decide; intros [= _ <-] [].
Qed.

(** X9.  A login request, whatever its outcome, leaves the account of
    every name other than the submitted one as it was, and never touches
    the expenses or the budgets: failing against one account cannot lock
    another. *)
Theorem login_touches_one_account `{Runtime} now now' req w v :
  form req !! "username" ≠ Some v →
  let w' := after (login now now' req) w in
  select_user v (db w') = select_user v (db w) ∧
  expenses (db w') = expenses (db w) ∧
  budgets (db w') = budgets (db w).
Proof.
  intros Hv. cbn. unfold after, login. destruct (method req); [done|].
  run_handler.
  destruct (form req !! "username") as [u|]; cbn; [|done].
  assert (u ≠ v) as Hne by congruence.
  destruct (select_user u (db w)) as [user|] eqn:Hsel; cbn; [|done].
  destruct (lock_active now user); [done|].
  destruct (form req !! "password") as [p|]; [|done].
  assert (∀ (g : user_row → user_row),
            (λ r, if bool_decide (username r = u) then g r else r)
              <$> select_user v (db w) = select_user v (db w)) as Hsame.
  { intros g. destruct (select_user v (db w)) as [r|] eqn:Hr; [|done]. cbn.
    apply select_user_username in Hr.
    by rewrite bool_decide_eq_false_2 by congruence. }
  destruct (check_password_hash (password user) p); [|case_bool_decide];
    cbn [db]; (split; [|done]).
  - rewrite select_user_reset. apply Hsame.
  - rewrite select_user_lock. apply Hsame.
  - rewrite select_user_attempts. apply Hsame.
Qed.

(** X10.  [logout] empties the session and leaves the database alone;
    after it the handlers that test the session redirect to the login
    page, and a second logout changes nothing more. *)
Theorem logout_ends_session `{Runtime} w :
  ∃ w',
    logout w = Return (redirect "/", w') ∧
    db w' = db w ∧
    sess w' = Session None [] ∧
    logout w' = Return (redirect "/", w') ∧
    (∀ now req, dashboard now req w' = Return (redirect "/", w')) ∧
    (∀ req, add req w' = Return (redirect "/", w')) ∧
    (∀ id req, edit id req w' = Return (redirect "/", w')) ∧
    (∀ req, export_pdf req w' = Return (redirect "/", w')).
Proof.
  eexists. split; [reflexivity|]. cbn [db sess].
  do 3 (split; [done|]).
  repeat split; intros; by apply gated_handlers_redirect.
Qed.

(** ** Expenses *)

Section ExpenseProperties.
Context `{Runtime}.

Lemma filter_filter_keep {A} (f g : A → bool) (l : list A) :
  (∀ x, f x = true → g x = true) →
  List.filter f (List.filter g l) = List.filter f l.
Proof.
  intros Hfg. induction l as [|x l IH]; [done|]. cbn.
  destruct (g x) eqn:Hg; cbn.
  - destruct (f x); by rewrite IH.
  - destruct (f x) eqn:Hf; [|done]. rewrite Hfg in Hg; done.
Qed.

Lemma filter_filter_drop {A} (f g : A → bool) (l : list A) :
  (∀ x, f x = true → g x = false) →
  List.filter f (List.filter g l) = [].
Proof.
  intros Hfg. induction l as [|x l IH]; [done|]. cbn.
  destruct (g x) eqn:Hg; cbn; [|done].
  destruct (f x) eqn:Hf; [|done]. rewrite Hfg in Hg; done.
Qed.

Lemma expense_matches_owner u mon e :
  expense_matches u mon e = true → expense_user e = u.
Proof.
  unfold expense_matches. intros [Hu _]%andb_prop.
  by apply bool_decide_eq_true in Hu.
Qed.

Lemma expense_matches_month u m e :
  expense_matches u (Some m) e = true → sqlite_strftime_Ym (date e) = Some m.
Proof.
  unfold expense_matches. intros [_ Hm]%andb_prop.
  by apply bool_decide_eq_true in Hm.
Qed.

Lemma expense_matches_weaken u mon e :
  expense_matches u mon e = true → expense_matches u None e = true.
Proof.
  unfold expense_matches. intros [-> _]%andb_prop. done.
Qed.

Lemma add_posted req w u raw cat dt :
  session_user (sess w) = Some u →
  method req = POST →
  form req !! "amount" = Some raw →
  form req !! "category" = Some cat →
  form req !! "date" = Some dt →
  add req w =
    Return (redirect "/dashboard",
            World (insert_expense u (PyNum (parse_float_safe (PyStr raw))) cat dt (db w))
                  (Session (Some u) (flashes (sess w) ++ [ExpenseAdded]))).
Proof.
  intros Hs Hm Hamt Hcat Hdt. unfold add. run_handler.
  rewrite Hs, Hm, Hamt. cbn. rewrite Hcat. cbn. rewrite Hdt. cbn. by rewrite Hs.
Qed.

Lemma delete_with_session id w u :
  session_user (sess w) = Some u →
  delete id w = Return (redirect "/dashboard", World (delete_expense id u (db w)) (sess w)).
Proof. intros Hs. unfold delete. run_handler. by rewrite Hs. Qed.

(** What a submitted edit does, by the fields of its form. *)
Lemma edit_posted id req w u amt dt :
  session_user (sess w) = Some u →
  method req = POST →
  form req !! "amount" = Some amt →
  form req !! "date" = Some dt →
  edit id req w =
    match truthy_arg (form req !! "custom_category"), form req !! "category" with
    | Some c, _ | None, Some c =>
        Return (redirect "/dashboard",
                World (update_expense (PyStr amt) c dt id u (db w))
                      (Session (Some u) (flashes (sess w) ++ [ExpenseUpdated])))
    | None, None => Raise (BadRequestKeyError "category")
    end.
Proof.
  intros Hs Hm Hamt Hdt. unfold edit, edit_category. run_handler.
  rewrite Hs, Hm, Hamt. cbn.
  destruct (truthy_arg (form req !! "custom_category")); cbn.
  - rewrite Hdt. cbn. by rewrite Hs.
  - destruct (form req !! "category"); cbn; [|done].
    rewrite Hdt. cbn. by rewrite Hs.
Qed.

(** An edit leaves the world alone or commits one UPDATE of the session
    identity. *)
Lemma edit_after id req w :
  after (edit id req) w = w ∨
  ∃ u amt cat dt s,
    session_user (sess w) = Some u ∧
    after (edit id req) w = World (update_expense amt cat dt id u (db w)) s.
Proof.
  unfold after, edit, edit_category. run_handler.
  destruct (session_user (sess w)) as [u|] eqn:Hs; [|by left].
  destruct (method req); [by left|].
  destruct (form req !! "amount"); cbn; [|by left].
  destruct (truthy_arg _); cbn.
  - destruct (form req !! "date"); cbn; [|by left]. right. by do 5 eexists.
  - destruct (form req !! "category"); cbn; [|by left].
    destruct (form req !! "date"); cbn; [|by left]. right. by do 5 eexists.
Qed.

Lemma select_after_delete_expenses u mon v mon' d :
  select_expenses v mon' (delete_expenses u mon d) =
    List.filter (λ e, negb (expense_matches u mon e)) (select_expenses v mon' d).
Proof.
  unfold select_expenses, delete_expenses. cbn.
  induction (expenses d) as [|e es IH]; [done|]. cbn.
  destruct (expense_matches u mon e) eqn:Hd, (expense_matches v mon' e) eqn:Hs;
    cbn; rewrite ?Hd, ?Hs; cbn; by rewrite IH.
Qed.

End ExpenseProperties.

(** X11.  A submitted [add] or [edit] whose form lacks a field raises
    the bad-request error that names the first missing field, in the
    order in which the handler reads them: amount, category, date for
    [add]; amount, then the category (only when no non-empty custom
    category is given), then date for [edit]. *)
Theorem missing_form_field_raises `{Runtime} w u id req :
  session_user (sess w) = Some u →
  method req = POST →
  (form req !! "amount" = None →
     add req w = Raise (BadRequestKeyError "amount") ∧
     edit id req w = Raise (BadRequestKeyError "amount")) ∧
  (is_Some (form req !! "amount") → form req !! "category" = None →
     add req w = Raise (BadRequestKeyError "category") ∧
     (truthy_arg (form req !! "custom_category") = None →
      edit id req w = Raise (BadRequestKeyError "category"))) ∧
  (is_Some (form req !! "amount") → is_Some (form req !! "category") →
   form req !! "date" = None →
     add req w = Raise (BadRequestKeyError "date") ∧
     edit id req w = Raise (BadRequestKeyError "date")).
Proof.
  intros Hs Hm. unfold add, edit, edit_category. run_handler. rewrite Hs, Hm.
  split; [|split].
  - intros ->. done.
  - intros [a ->] Hcat. cbn. rewrite Hcat. split; [done|].
    intros ->. done.
  - intros [a ->] [c ->] Hdt. cbn. rewrite Hdt. split; [done|].
    by destruct (truthy_arg _).
Qed.

(** X12.  A submitted [add] with its fields present, whose amount text
    [float] does not read as nan or an infinity, appends one row to the
    rows of the session identity: the next id, the identity, the number
    [float] reads from the amount text, or 0 when [float] rejects it,
    and the submitted category and date.  The rows of every other
    identity, under any month filter, the accounts and the budgets are
    as before. *)
Theorem add_appends_one_row `{Runtime} w u req raw cat dt :
  session_user (sess w) = Some u →
  method req = POST →
  form req !! "amount" = Some raw →
  form req !! "category" = Some cat →
  form req !! "date" = Some dt →
  py_float_special raw = false →
  ∃ w',
    add req w = Return (redirect "/dashboard", w') ∧
    select_expenses u None (db w') =
      select_expenses u None (db w) ++
      [ExpenseRow (seq_expenses (db w) + 1) u
                  (PyNum (default 0%Qc (py_float raw))) cat dt] ∧
    (∀ v mon, v ≠ u → select_expenses v mon (db w') = select_expenses v mon (db w)) ∧
    users (db w') = users (db w) ∧
    budgets (db w') = budgets (db w).
Proof.
  intros Hs Hm Hamt Hcat Hdt _. eexists. split; [by apply add_posted|].
  cbn [db].
  assert (select_expenses u None
            (insert_expense u (PyNum (parse_float_safe (PyStr raw))) cat dt (db w))
          = select_expenses u None (db w) ++
            [ExpenseRow (seq_expenses (db w) + 1) u
                        (PyNum (default 0%Qc (py_float raw))) cat dt]) as Hrows.
  { unfold select_expenses, insert_expense. cbn. rewrite List.filter_app. cbn.
    unfold expense_matches. cbn. by rewrite bool_decide_eq_true_2. }
  split; [done|].
  split; [|done]. intros v mon Hv.
  unfold select_expenses, insert_expense. cbn. rewrite List.filter_app. cbn.
  unfold expense_matches at 2. cbn.
  rewrite bool_decide_eq_false_2 by done. cbn. by rewrite app_nil_r.
Qed.

(** X13.  In a reachable world, adding an expense and then deleting the
    id it was given puts the expense table back to the rows it had; only
    the AUTOINCREMENT counter has moved on, so the id is not given out
    again. *)
Theorem add_then_delete_restores `{Runtime} w u req raw cat dt :
  reachable w →
  session_user (sess w) = Some u →
  method req = POST →
  form req !! "amount" = Some raw →
  form req !! "category" = Some cat →
  form req !! "date" = Some dt →
  ∃ w1 w2,
    add req w = Return (redirect "/dashboard", w1) ∧
    delete (seq_expenses (db w) + 1) w1 = Return (redirect "/dashboard", w2) ∧
    expenses (db w2) = expenses (db w) ∧
    seq_expenses (db w2) = seq_expenses (db w) + 1 ∧
    users (db w2) = users (db w) ∧
    budgets (db w2) = budgets (db w).
Proof.
  intros Hr Hs Hm Hamt Hcat Hdt. do 2 eexists.
  split; [by apply add_posted|]. split; [by apply delete_with_session|].
  cbn. split; [|done]. rewrite List.filter_app. cbn.
  unfold expense_is at 2. cbn. rewrite !bool_decide_eq_true_2 by done. cbn.
  rewrite app_nil_r. apply filter_none_matches.
  destruct (reachable_ids w Hr) as (_ & (_ & _ & Hbound) & _).
  apply Forall_forall. intros e Hin. unfold expense_is.
  rewrite Forall_forall in Hbound.
  specialize (Hbound (expense_id e) (list_elem_of_fmap_2 _ _ _ Hin)).
  rewrite bool_decide_eq_false_2 by lia. done.
Qed.

(** X14.  With a session and an id of a URL that SQLite can bind (below
    2^63), [delete] removes the rows that have both the given id and
    the session identity as owner, and nothing else: every other row
    stays, the accounts and budgets stay, and deleting the same id again
    changes nothing. *)
Theorem delete_removes_only_own_row `{Runtime} w u id :
  session_user (sess w) = Some u →
  url_id id →
  ∃ w',
    delete id w = Return (redirect "/dashboard", w') ∧
    (∀ e, e ∈ expenses (db w') ↔
          e ∈ expenses (db w) ∧ ¬ (expense_id e = id ∧ expense_user e = u)) ∧
    users (db w') = users (db w) ∧
    budgets (db w') = budgets (db w) ∧
    sess w' = sess w ∧
    delete id w' = Return (redirect "/dashboard", w').
Proof.
  intros Hs _. eexists. split; [by apply delete_with_session|].
  assert (∀ e, e ∈ expenses (delete_expense id u (db w)) ↔
               e ∈ expenses (db w) ∧ ¬ (expense_id e = id ∧ expense_user e = u))
    as Hrows.
  { intros e. unfold delete_expense. cbn.
    rewrite !list_elem_of_In, filter_In, negb_true_iff. unfold expense_is.
    rewrite andb_false_iff, !bool_decide_eq_false. split.
    - intros [Hin Hn]. split; [done|]. intros [Hid Hu]. by destruct Hn.
    - intros [Hin Hn]. split; [done|].
      destruct (decide (expense_id e = id)) as [Hid|Hid]; [right|by left].
      intros Hu. by apply Hn. }
  cbn [db sess]. do 4 (split; [done|]).
  rewrite (delete_with_session id _ u) by done. cbn [db sess]. do 2 f_equal.
  rewrite delete_expense_absent; [done|].
  intros e [_ Hne]%Hrows Hid Hu. by apply Hne.
Qed.

(** X15.  An [edit] request, whatever it carries, keeps the number of
    expense rows, their order, their ids and their owners, and leaves
    alone every row that does not have both the given id and the session
    identity as owner. *)
Theorem edit_keeps_ids_and_owners `{Runtime} w id req :
  let w' := after (edit id req) w in
  map expense_id (expenses (db w')) = map expense_id (expenses (db w)) ∧
  map expense_user (expenses (db w')) = map expense_user (expenses (db w)) ∧
  (∀ e, e ∈ expenses (db w) →
        (expense_id e ≠ id ∨ session_user (sess w) ≠ Some (expense_user e)) →
        e ∈ expenses (db w')) ∧
  users (db w') = users (db w) ∧
  budgets (db w') = budgets (db w).
Proof.
  cbn. destruct (edit_after id req w) as [->|(u & amt & cat & dt & s & Hs & ->)];
    [done|].
  unfold update_expense. cbn. repeat split.
  - rewrite map_map. apply map_ext. intros e. by destruct (expense_is id u e).
  - rewrite map_map. apply map_ext. intros e. by destruct (expense_is id u e).
  - intros e Hin Hne. apply list_elem_of_fmap. exists e. split; [|done].
    assert (expense_is id u e = false) as ->; [|done].
    unfold expense_is. apply andb_false_iff. rewrite !bool_decide_eq_false.
    destruct Hne as [?|Hne]; [by left|right]. congruence.
Qed.

(** X16.  In a submitted [edit], a non-empty custom category is the
    category written, whether or not the form has a category field; an
    absent or empty custom category gives way to the category field; with
    neither the handler raises the bad-request error for the category. *)
Theorem edit_custom_category_overrides `{Runtime} w u id req amt dt :
  session_user (sess w) = Some u →
  method req = POST →
  form req !! "amount" = Some amt →
  form req !! "date" = Some dt →
  (∀ c, form req !! "custom_category" = Some c → c ≠ "" →
        db (after (edit id req) w) = update_expense (PyStr amt) c dt id u (db w)) ∧
  (∀ c, form req !! "custom_category" = None ∨ form req !! "custom_category" = Some "" →
        form req !! "category" = Some c →
        db (after (edit id req) w) = update_expense (PyStr amt) c dt id u (db w)) ∧
  (form req !! "custom_category" = None ∨ form req !! "custom_category" = Some "" →
   form req !! "category" = None →
   edit id req w = Raise (BadRequestKeyError "category")).
Proof.
  intros Hs Hm Hamt Hdt. unfold after.
  rewrite (edit_posted id req w u amt dt) by done. repeat split.
  - intros c -> Hc. cbn. unfold str_truthy.
    by rewrite bool_decide_eq_false_2.
  - intros c [-> | ->] ->; done.
  - intros [-> | ->] ->; done.
Qed.

(** X17.  With a session, [clear_all] removes every expense row of the
    session identity and no other row: afterwards the identity has no
    rows under any month filter, while the rows of every other identity,
    the accounts and the budgets are as before. *)
Theorem clear_all_removes_only_own `{Runtime} w u :
  session_user (sess w) = Some u →
  ∃ w',
    clear_all w = Return (jsonify_done, w') ∧
    (∀ mon, select_expenses u mon (db w') = []) ∧
    (∀ v mon, v ≠ u → select_expenses v mon (db w') = select_expenses v mon (db w)) ∧
    users (db w') = users (db w) ∧
    budgets (db w') = budgets (db w) ∧
    sess w' = sess w.
Proof.
  intros Hs. unfold clear_all. run_handler. rewrite Hs. eexists.
  split; [done|]. cbn [db sess]. repeat split.
  - intros mon. rewrite select_after_delete_expenses.
    unfold select_expenses. apply filter_filter_drop.
    intros e Hn%negb_true_iff. unfold expense_matches in *.
    rewrite andb_true_r in Hn. by rewrite Hn.
  - intros v mon Hv. rewrite select_after_delete_expenses.
    apply filter_none_matches, Forall_forall.
    intros e [_ Hm]%list_elem_of_In%filter_In.
    apply expense_matches_owner in Hm. unfold expense_matches.
    by rewrite bool_decide_eq_false_2 by congruence.
Qed.

(** X18.  With a session, [clear_month] for a month removes the rows of
    the session identity that the month filter of the dashboard selects,
    and no other row: the rows of the identity under any other month
    filter are as before, a row whose date SQLite cannot read as a time
    value is never removed, and the rows of other identities, the
    accounts and the budgets are as before. *)
Theorem clear_month_removes_only_that_month `{Runtime} w u req m :
  session_user (sess w) = Some u →
  json_month (json req) = Some m →
  ∃ w',
    clear_month req w = Return (jsonify_status_ok, w') ∧
    select_expenses u (Some m) (db w') = [] ∧
    (∀ m', m' ≠ m →
           select_expenses u (Some m') (db w') = select_expenses u (Some m') (db w)) ∧
    (∀ e, e ∈ expenses (db w) → sqlite_strftime_Ym (date e) = None →
          e ∈ expenses (db w')) ∧
    (∀ v mon, v ≠ u → select_expenses v mon (db w') = select_expenses v mon (db w)) ∧
    users (db w') = users (db w) ∧
    budgets (db w') = budgets (db w).
Proof.
  intros Hs Hm. unfold clear_month. run_handler. rewrite Hs, Hm. eexists.
  split; [done|]. cbn [db sess]. repeat split.
  - rewrite select_after_delete_expenses.
    unfold select_expenses. apply filter_filter_drop.
    intros e. by rewrite negb_true_iff.
  - intros m' Hm'. rewrite select_after_delete_expenses.
    apply filter_none_matches, Forall_forall.
    intros e [_ He]%list_elem_of_In%filter_In.
    apply expense_matches_month in He. unfold expense_matches.
    rewrite (bool_decide_eq_false_2 (_ = Some m)) by congruence.
    by rewrite andb_false_r.
  - intros e Hin Hnull. unfold delete_expenses. cbn.
    apply list_elem_of_In, filter_In. split; [by apply list_elem_of_In|].
    unfold expense_matches.
    rewrite (bool_decide_eq_false_2 (_ = Some m)) by congruence.
    by rewrite andb_false_r.
  - intros v mon Hv. rewrite select_after_delete_expenses.
    apply filter_none_matches, Forall_forall.
    intros e [_ He]%list_elem_of_In%filter_In.
    apply expense_matches_owner in He. unfold expense_matches.
    by rewrite bool_decide_eq_false_2 by congruence.
Qed.

(** ** Budgets *)

Section BudgetProperties.
Context `{Runtime}.






End BudgetProperties.



(** ** Dashboard and export *)

(** X21.  The rows on a rendered dashboard are exactly the expense rows
    owned by the session identity whose month, as SQLite's [strftime]
    reads their date, is the month filter, when the request has a
    non-empty one; they come in table order, and the page is rendered
    for the session identity with the month argument as it was sent. *)
Theorem dashboard_rows_owned `{Runtime} w u now req ctx w' :
  session_user (sess w) = Some u →
  dashboard now req w = Return (render_dashboard ctx, w') →
  (∀ e, e ∈ ctx_expenses ctx ↔
        e ∈ expenses (db w) ∧ expense_user e = u ∧
        ∀ m, truthy_arg (args req !! "month") = Some m →
             sqlite_strftime_Ym (date e) = Some m) ∧
  sublist (ctx_expenses ctx) (expenses (db w)) ∧
  ctx_username ctx = u ∧
  ctx_selected_month ctx = args req !! "month".
Proof.
  intros Hs Hd. destruct (dashboard_renders _ _ _ _ _ _ Hs Hd) as (_ & _ & ->).
  cbn [ctx_expenses ctx_username ctx_selected_month].
  split; [|split; [|done]].
  - intros e. split.
    + intros [Hin Hm]%list_elem_of_In%filter_In.
      split; [by apply list_elem_of_In|].
      split; [by eapply expense_matches_owner|].
      intros m Hmon. rewrite Hmon in Hm. by apply expense_matches_month in Hm.
    + intros (Hin & Hu & Hm). apply list_elem_of_In, filter_In.
      split; [by apply list_elem_of_In|]. unfold expense_matches.
      rewrite bool_decide_eq_true_2 by done. cbn.
      destruct (truthy_arg _) as [m|]; [|done].
      by rewrite bool_decide_eq_true_2 by by apply Hm.
  - unfold select_expenses. induction (expenses (db w)) as [|e es IH]; [done|].
    cbn. destruct (expense_matches _ _ e); by constructor.
Qed.

(** X23.  A month argument that is the empty text is no filter: the
    dashboard request answers as the request without the argument does,
    except that the page is told the empty text as selected month; and
    the exported report is the same. *)
Theorem empty_month_is_no_filter `{Runtime} w now req req0 :
  args req !! "month" = Some "" →
  args req0 !! "month" = None →
  dashboard now req w =
    match dashboard now req0 w with
    | Return (render_dashboard c, w') =>
        Return (render_dashboard
                  (DashboardContext (ctx_expenses c) (ctx_total c)
                     (ctx_category_amounts c) (ctx_monthly_totals c)
                     (ctx_budget c) (ctx_budget_alert c) (Some "") (ctx_username c)),
                w')
    | other => other
    end ∧
  export_pdf req w = export_pdf req0 w.
Proof.
  intros Hreq Hreq0. unfold dashboard, export_pdf, budget_alert. run_handler.
  rewrite Hreq, Hreq0. cbn.
  destruct (session_user (sess w)) as [u|]; [|done].
  split; [|done].
  destruct (py_truthy _); [|done].
  by destruct (from_option _ _ _).
Qed.

(** X24.  With a session, [export_pdf] always returns a report, never an
    error, and leaves the world alone.  Its title is the month filter,
    or "All Data" without one; its lines are the rows a dashboard of the
    same request shows, in the same order, and its total is that
    dashboard's total. *)
Theorem export_matches_dashboard `{Runtime} w u req :
  session_user (sess w) = Some u →
  ∃ report,
    export_pdf req w = Return (send_file report, w) ∧
    pdf_title report = default "All Data" (truthy_arg (args req !! "month")) ∧
    ∀ now ctx w',
      dashboard now req w = Return (render_dashboard ctx, w') →
      pdf_lines report = map (λ r, (date r, category r, amount r)) (ctx_expenses ctx) ∧
      pdf_total report = ctx_total ctx.
Proof.
  intros Hs. unfold export_pdf. run_handler. rewrite Hs. eexists.
  split; [done|]. cbn [pdf_title pdf_lines pdf_total].
  split; [done|]. intros now ctx w' Hd.
  by destruct (dashboard_renders _ _ _ _ _ _ Hs Hd) as (_ & _ & ->).
Qed.

(** X25.  Requests that only read: whatever [dashboard] and
    [export_pdf] return, and whenever [login], [signup], [add] or [edit]
    is asked for its page with GET, the database and the session are as
    they were before the request. *)
Theorem reading_requests_change_nothing `{Runtime} w req :
  (∀ now r w', dashboard now req w = Return (r, w') → w' = w) ∧
  (∀ r w', export_pdf req w = Return (r, w') → w' = w) ∧
  (method req = GET →
     (∀ now now', after (login now now' req) w = w) ∧
     (∀ salt, after (signup salt req) w = w) ∧
     after (add req) w = w ∧
     (∀ id, after (edit id req) w = w)).
Proof.
  split; [|split].
  - intros now r w'. apply dashboard_reads.
  - intros r w'. apply export_pdf_reads.
  - intros Hm. unfold after, login, signup, add, edit. run_handler. rewrite Hm.
    repeat split; intros; by destruct (session_user (sess w)), w.
Qed.

Lemma login_other_tables `{Runtime} now now' req w :
  expenses (db (after (login now now' req) w)) = expenses (db w) ∧
  budgets (db (after (login now now' req) w)) = budgets (db w).
Proof.
  unfold after, login. destruct (method req); [done|]. run_handler.
  destruct (form req !! "username") as [u|]; cbn; [|done].
  destruct (select_user u (db w)) as [user|]; cbn; [|done].
  destruct (lock_active now user); [done|].
  destruct (form req !! "password") as [p|]; [|done].
  destruct (check_password_hash (password user) p); [done|].
  by case_bool_decide.
Qed.

(** ** Which request writes which table *)

(** Splits on the tests a handler makes on the session, the method and
    the fields of the request. *)
Ltac split_request :=
  repeat match goal with
         | |- context [match session_user ?s with _ => _ end] =>
             destruct (session_user s)
         | |- context [match method ?r with _ => _ end] => destruct (method r)
         | |- context [match form ?r !! ?k with _ => _ end] =>
             destruct (form r !! k); cbn
         | |- context [match truthy_arg ?o with _ => _ end] =>
             destruct (truthy_arg o); cbn
         | |- context [match json_month ?j with _ => _ end] =>
             destruct (json_month j); cbn
         | |- context [match json_amount ?j with _ => _ end] =>
             destruct (json_amount j); cbn
         end.

(** X26.  One request writes at most the table of its route: [login]
    and [signup] leave expenses and budgets as they were; [add],
    [delete], [edit], [clear_month] and [clear_all] leave accounts and
    budgets; [set_budget] leaves accounts and expenses; [logout],
    [dashboard] and [export_pdf] leave the whole database.  This holds
    for every request, also one the router refuses or the handler
    raises on. *)
Theorem request_writes_its_table `{Runtime} w c :
  let d := db w in
  let d' := db (step w c) in
  match c.1 with
  | Login _ _ | Signup _ => expenses d' = expenses d ∧ budgets d' = budgets d
  | Add | Delete _ | Edit _ | ClearMonth | ClearAll =>
      users d' = users d ∧ budgets d' = budgets d
  | SetBudget => users d' = users d ∧ expenses d' = expenses d
  | Logout | Dashboard _ | ExportPdf => d' = d
  end.
Proof.
  cbn. destruct (step_after c w) as [->| ->]; [by destruct c.1|].
  destruct c.1.
  - by apply (login_other_tables).
  - unfold after, signup. run_handler. split_request; try done.
    by destruct (select_user _ _).
  - done.
  - by rewrite after_reads by apply dashboard_reads.
  - unfold after, add. run_handler. by split_request.
  - unfold after, delete. run_handler. by split_request.
  - unfold after, edit, edit_category. run_handler. by split_request.
  - unfold after, set_budget. run_handler. by split_request.
  - unfold after, clear_month. run_handler. by split_request.
  - unfold after, clear_all. run_handler. by split_request.
  - by rewrite after_reads by apply export_pdf_reads.
Qed.

(** ** The pages of the report *)

(** Linear arithmetic over the canonical rationals, by way of [Q]. *)
Ltac qc_lra :=
  unfold Qcle, Qclt, Qcminus, Qcplus, Qcopp, Q2Qc, Qc_of_Z, inject_Z in *;
  cbn [this] in *;
  rewrite ?Qred_correct in *; lra.

Section ReportProperties.
Context `{Runtime}.

Local Open Scope Qc_scope.

Lemma strings_at_app x ops1 ops2 :
  strings_at x (ops1 ++ ops2) = strings_at x ops1 ++ strings_at x ops2.
Proof. unfold strings_at. by rewrite flat_map_app. Qed.

Lemma heights_app ops1 ops2 : heights (ops1 ++ ops2) = heights ops1 ++ heights ops2.
Proof. unfold heights. by rewrite flat_map_app. Qed.

Lemma page_breaks_app ops1 ops2 :
  page_breaks (ops1 ++ ops2) = (page_breaks ops1 + page_breaks ops2)%nat.
Proof. unfold page_breaks. by rewrite List.filter_app, length_app. Qed.

Lemma strings_at_row y t1 t2 t3 rest :
  let ops := DrawString 40 y t1 :: DrawString 150 y t2 :: DrawString 300 y t3 :: rest in
  strings_at 40 ops = (y, t1) :: strings_at 40 rest ∧
  strings_at 150 ops = (y, t2) :: strings_at 150 rest ∧
  strings_at 300 ops = (y, t3) :: strings_at 300 rest.
Proof. done. Qed.

Lemma strings_at_break x (b : bool) rest :
  strings_at x ((if b then [ShowPage] else []) ++ rest) = strings_at x rest.
Proof. by destruct b. Qed.

(** The texts of the loop, column by column; the three texts of a row
    share one height; the sum it returns. *)
Lemma draw_rows_texts h rows y total :
  let ops := (draw_rows h rows y total).1 in
  map snd (strings_at 40 ops) = map (λ r, StrText (date r)) rows ∧
  map snd (strings_at 150 ops) = map (λ r, StrText (category r)) rows ∧
  map snd (strings_at 300 ops) = map (λ r, CellText (amount r)) rows ∧
  map fst (strings_at 150 ops) = map fst (strings_at 40 ops) ∧
  map fst (strings_at 300 ops) = map fst (strings_at 40 ops) ∧
  (draw_rows h rows y total).2.2 =
    foldl (λ acc e, acc + parse_float_safe (amount e)) total rows.
Proof.
  revert y total. induction rows as [|r rows IH]; intros y total; [done|].
  cbn [draw_rows fst snd foldl].
  set (y1 := if bool_decide (y < Qc_of_Z 50) then h - Qc_of_Z 50 else y).
  specialize (IH (y1 - Qc_of_Z 15) (total + parse_float_safe (amount r))).
  cbn zeta in IH. destruct IH as (I40 & I150 & I300 & Iy150 & Iy300 & Itot).
  rewrite !strings_at_break. cbn [app].
  destruct (strings_at_row y1 (StrText (date r)) (StrText (category r))
              (CellText (amount r))
              (draw_rows h rows (y1 - Qc_of_Z 15)
                         (total + parse_float_safe (amount r))).1)
    as (-> & -> & ->).
  cbn [map fst snd]. rewrite I40, I150, I300, Iy150, Iy300. done.
Qed.

(** The heights of the loop stay between the bottom margin and the top
    of a fresh page. *)
Lemma draw_rows_heights h rows y total :
  Qc_of_Z 100 ≤ h →
  Qc_of_Z 30 ≤ y → y ≤ h - Qc_of_Z 50 →
  Forall (λ y', Qc_of_Z 50 ≤ y' ∧ y' ≤ h - Qc_of_Z 50)
         (heights (draw_rows h rows y total).1) ∧
  Qc_of_Z 30 ≤ (draw_rows h rows y total).2.1 ∧
  (draw_rows h rows y total).2.1 ≤ h - Qc_of_Z 50.
Proof.
  intros Hh. revert y total. induction rows as [|r rows IH]; intros y total Hlo Hhi.
  { cbn. split; [constructor|done]. }
  cbn [draw_rows fst snd].
  set (y1 := if bool_decide (y < Qc_of_Z 50) then h - Qc_of_Z 50 else y).
  assert (Qc_of_Z 50 ≤ y1 ∧ y1 ≤ h - Qc_of_Z 50) as [Hy1 Hy1'].
  { unfold y1. case_bool_decide as Hlt.
    - split; [|apply Qcle_refl]. clear -Hh. qc_lra.
    - apply Qcnot_lt_le in Hlt. done. }
  destruct (IH (y1 - Qc_of_Z 15) (total + parse_float_safe (amount r)))
    as (IHf & IHlo & IHhi).
  { clear -Hy1. qc_lra. }
  { clear -Hy1'. qc_lra. }
  split; [|done].
  rewrite heights_app.
  assert (heights (if bool_decide (y < Qc_of_Z 50) then [ShowPage] else []) = [])
    as -> by by case_bool_decide.
  cbn [app heights flat_map]. by repeat constructor.
Qed.

Lemma row_height_break first k :
  (k ≤ page_rows first)%nat →
  bool_decide (row_height first k < Qc_of_Z 50) = bool_decide (k = page_rows first).
Proof.
  intros Hk. destruct first; cbn [page_rows] in *;
    do 51 (destruct k as [|k]; [first [lia|vm_compute; reflexivity]|]); lia.
Qed.

Lemma draw_rows_breaks rows first k total :
  (k ≤ page_rows first)%nat →
  page_breaks (draw_rows A4_height rows (row_height first k) total).1 =
    match rows with
    | [] => 0%nat
    | _ => ((length rows + k + (if first then 1 else 0) - 1) / 50)%nat
    end.
Proof.
  revert first k total. induction rows as [|r rows IH]; intros first k total Hk;
    [done|].
  cbn [draw_rows fst snd]. rewrite row_height_break by done.
  rewrite page_breaks_app. case_bool_decide as Hfull.
  - change (A4_height - Qc_of_Z 50 - Qc_of_Z 15) with (row_height false 1).
    rewrite page_breaks_app. cbn [page_breaks List.filter length app].
    fold (page_breaks (draw_rows A4_height rows (row_height false 1)
                         (total + parse_float_safe (amount r))).1).
    rewrite IH by (cbn; lia). subst k.
    destruct rows as [|r' rows].
    + by destruct first.
    + cbn [length].
      replace (S (S (length rows)) + page_rows first + (if first then 1 else 0) - 1)%nat
        with (S (length rows) + 1 * 50)%nat by (destruct first; cbn; lia).
      rewrite Nat.div_add by lia.
      replace (S (length rows) + 1 + 0 - 1)%nat with (S (length rows)) by lia.
      lia.
  - change (row_height first k - Qc_of_Z 15) with (row_height first (S k)).
    rewrite page_breaks_app. cbn [page_breaks List.filter length app].
    fold (page_breaks (draw_rows A4_height rows (row_height first (S k))
                         (total + parse_float_safe (amount r))).1).
    rewrite IH by lia.
    destruct rows as [|r' rows].
    + cbn [length]. symmetry. apply Nat.div_small.
      destruct first; cbn in *; lia.
    + cbn [length]. rewrite !Nat.add_0_l. f_equal. destruct first; lia.
Qed.

Lemma strings_at_heights (P : Qc → Prop) x ops :
  Forall P (heights ops) → Forall (λ p, P p.1) (strings_at x ops).
Proof.
  induction ops as [|op ops IH]; [constructor|].
  destruct op as [| x' y t | |]; cbn; try done.
  intros [Hy Hrest]%Forall_cons. case_bool_decide; cbn; [constructor|]; auto.
Qed.

(** The texts of the whole report. *)
Lemma draw_report_texts h title rows :
  let ops := draw_report h title rows in
  map snd (strings_at 40 ops) =
    TitleText title :: map (λ r, StrText (date r)) rows ++ [TotalText (total_of rows)] ∧
  map snd (strings_at 150 ops) = map (λ r, StrText (category r)) rows ∧
  map snd (strings_at 300 ops) = map (λ r, CellText (amount r)) rows ∧
  map fst (strings_at 150 ops) = map fst (strings_at 300 ops) ∧
  (∃ y_total,
      map fst (strings_at 40 ops) =
        (h - Qc_of_Z 40) :: map fst (strings_at 150 ops) ++ [y_total]) ∧
  last ops = Some Save.
Proof.
  cbn zeta. unfold draw_report.
  set (body := draw_rows h rows (h - Qc_of_Z 40 - Qc_of_Z 30) 0).
  destruct (draw_rows_texts h rows (h - Qc_of_Z 40 - Qc_of_Z 30) 0)
    as (H40 & H150 & H300 & Hy150 & Hy300 & Htot).
  fold body in H40, H150, H300, Hy150, Hy300, Htot.
  rewrite !strings_at_app.
  change (strings_at 40 [SetFont "Helvetica-Bold" 14;
                         DrawString 40 (h - Qc_of_Z 40) (TitleText title);
                         SetFont "Helvetica" 10])
    with [(h - Qc_of_Z 40, TitleText title)].
  change (strings_at 40 [SetFont "Helvetica-Bold" 12;
                         DrawString 40 (body.2.1 - Qc_of_Z 20) (TotalText body.2.2);
                         Save])
    with [(body.2.1 - Qc_of_Z 20, TotalText body.2.2)].
  change (strings_at 150 [SetFont "Helvetica-Bold" 14;
                          DrawString 40 (h - Qc_of_Z 40) (TitleText title);
                          SetFont "Helvetica" 10]) with (@nil (Qc * pdf_text)).
  change (strings_at 300 [SetFont "Helvetica-Bold" 14;
                          DrawString 40 (h - Qc_of_Z 40) (TitleText title);
                          SetFont "Helvetica" 10]) with (@nil (Qc * pdf_text)).
  change (strings_at 150 [SetFont "Helvetica-Bold" 12;
                          DrawString 40 (body.2.1 - Qc_of_Z 20) (TotalText body.2.2);
                          Save]) with (@nil (Qc * pdf_text)).
  change (strings_at 300 [SetFont "Helvetica-Bold" 12;
                          DrawString 40 (body.2.1 - Qc_of_Z 20) (TotalText body.2.2);
                          Save]) with (@nil (Qc * pdf_text)).
  rewrite !app_nil_r. cbn [app map fst snd]. rewrite !map_app. cbn [map fst snd].
  rewrite H40, H150, H300, Htot. fold (total_of rows).
  do 3 (split; [done|]). split; [by rewrite Hy150, Hy300|].
  split; [exists (body.2.1 - Qc_of_Z 20); by rewrite Hy150|].
  assert (∀ (l : list canvas_op) x y z, last (l ++ [x; y; z]) = Some z) as Hlast.
  { intros l x y z. change [x; y; z] with ([x; y] ++ [z]).
    rewrite app_assoc. apply last_snoc. }
  exact (Hlast (_ :: _ :: _ :: body.1) _ _ _).
Qed.

End ReportProperties.

(** X28.  The canvas of the report carries the report: in drawing order
    the texts in the first column are the title, the dates of the rows
    and the total, those in the second and third column the categories
    and the amount cells of the rows; the three texts of a row are drawn
    at one height; nothing of a row is lost or drawn twice, with or
    without page breaks; and the last call saves the document. *)
Theorem report_canvas_draws_report `{Runtime} w u req report :
  session_user (sess w) = Some u →
  export_pdf req w = Return (send_file report, w) →
  let ops := export_canvas u req (db w) in
  map snd (strings_at 40 ops) =
    TitleText (pdf_title report) ::
    map (λ l, StrText l.1.1) (pdf_lines report) ++ [TotalText (pdf_total report)] ∧
  map snd (strings_at 150 ops) = map (λ l, StrText l.1.2) (pdf_lines report) ∧
  map snd (strings_at 300 ops) = map (λ l, CellText l.2) (pdf_lines report) ∧
  map fst (strings_at 150 ops) = map fst (strings_at 300 ops) ∧
  (∃ y_total,
      map fst (strings_at 40 ops) =
        (A4_height - Qc_of_Z 40)%Qc :: map fst (strings_at 150 ops) ++ [y_total]) ∧
  last ops = Some Save.
Proof.
  intros Hs. unfold export_pdf. run_handler. rewrite Hs. intros [= <-].
  cbn [pdf_title pdf_lines pdf_total]. rewrite !map_map. cbn [fst snd].
  apply draw_report_texts.
Qed.

(** X29.  On a page at least 100 points high every text of the report
    is drawn on the page: the title 40 points below the top, every text
    of a row between 50 points above the bottom and 50 points below the
    top, and the total at least 10 points above the bottom. *)
Theorem report_texts_on_page `{Runtime} h title rows :
  (Qc_of_Z 100 ≤ h)%Qc →
  let ops := draw_report h title rows in
  Forall (λ y, Qc_of_Z 10 ≤ y ∧ y ≤ h - Qc_of_Z 40)%Qc (heights ops) ∧
  Forall (λ p, Qc_of_Z 50 ≤ p.1 ∧ p.1 ≤ h - Qc_of_Z 50)%Qc (strings_at 150 ops) ∧
  Forall (λ p, Qc_of_Z 50 ≤ p.1 ∧ p.1 ≤ h - Qc_of_Z 50)%Qc (strings_at 300 ops).
Proof.
  intros Hh. cbn zeta. unfold draw_report.
  set (body := draw_rows h rows (h - Qc_of_Z 40 - Qc_of_Z 30)%Qc 0%Qc).
  destruct (draw_rows_heights h rows (h - Qc_of_Z 40 - Qc_of_Z 30)%Qc 0%Qc Hh)
    as (Hrows & Hlo & Hhi).
  { clear -Hh. qc_lra. }
  { clear -Hh. qc_lra. }
  fold body in Hrows, Hlo, Hhi.
  assert (∀ x, Forall (λ p, Qc_of_Z 50 ≤ p.1 ∧ p.1 ≤ h - Qc_of_Z 50)%Qc
                      (strings_at x body.1)) as Hcol.
  { intros x. by apply (strings_at_heights
                          (λ y, Qc_of_Z 50 ≤ y ∧ y ≤ h - Qc_of_Z 50)%Qc). }
  split; [|split].
  - rewrite !heights_app. cbn [heights flat_map app].
    apply Forall_cons. split.
    { clear -Hh. qc_lra. }
    apply Forall_app. split.
    + eapply Forall_impl; [exact Hrows|]. cbn. intros y [Hy1 Hy2].
      clear -Hy1 Hy2. qc_lra.
    + apply Forall_singleton. clear -Hlo Hhi. qc_lra.
  - rewrite !strings_at_app. cbn [strings_at flat_map app].
    rewrite !(bool_decide_eq_false_2 (40 = 150)) by done. cbn [app].
    rewrite app_nil_r. apply Hcol.
  - rewrite !strings_at_app. cbn [strings_at flat_map app].
    rewrite !(bool_decide_eq_false_2 (40 = 300)) by done. cbn [app].
    rewrite app_nil_r. apply Hcol.
Qed.

(** X30.  On A4 the report of n rows makes n / 50 page breaks, rounded
    down: the first page takes 49 rows below the title, every later page
    50, and a page is only begun when a row is left to draw. *)
Theorem report_page_breaks `{Runtime} title rows :
  page_breaks (draw_report A4_height title rows) = (length rows / 50)%nat.
Proof.
  unfold draw_report. rewrite !page_breaks_app.
  change (A4_height - Qc_of_Z 40 - Qc_of_Z 30)%Qc with (row_height true 0).
  rewrite draw_rows_breaks by (cbn; lia).
  cbn [page_breaks List.filter length]. destruct rows as [|r rows]; [done|].
  cbn [length]. rewrite Nat.add_0_l, Nat.add_0_r. f_equal. lia.
Qed.

(** * The statements on concrete runs *)

Import Concrete Scenario.
#[local] Existing Instance runtime.

(** Evaluates a decidable closed proposition. *)
Ltac by_evaluation := apply (bool_decide_unpack _); vm_compute; exact I.

(** ** The scenarios of the specification *)

(** Dashboard filtered to "2024-01": total 150, food 150; the monthly
    totals hold both months. *)
Example scenario_dashboard_january :
  ∃ ctx w',
    dashboard march_2024 (get_args [("month", "2024-01")]) alice_world
      = Return (render_dashboard ctx, w') ∧
    ctx_total ctx = Qc_of_Z 150 ∧
    ctx_category_amounts ctx = {[ "food" := Qc_of_Z 150 ]} ∧
    ctx_monthly_totals ctx = {[ "2024-01" := Qc_of_Z 150; "2024-02" := Qc_of_Z 900 ]}.
Proof.
  do 2 eexists. split; [vm_compute; reflexivity|]. split; [|split].
  - apply Qc_is_canon. reflexivity.
  - by_evaluation.
  - by_evaluation.
Qed.

(** Without a filter the monthly totals are the same and the total is
    that of all rows. *)
Example scenario_dashboard_unfiltered :
  ∃ ctx w',
    dashboard march_2024 (get_args []) alice_world
      = Return (render_dashboard ctx, w') ∧
    ctx_total ctx = Qc_of_Z 1050 ∧
    ctx_monthly_totals ctx = {[ "2024-01" := Qc_of_Z 150; "2024-02" := Qc_of_Z 900 ]}.
Proof.
  do 2 eexists. split; [vm_compute; reflexivity|]. split.
  - apply Qc_is_canon. reflexivity.
  - by_evaluation.
Qed.

(** Three wrong passwords lock the account; the right password within
    five minutes is refused. *)
Example scenario_locked_right_password :
  select_user "alice" (db locked_world) = Some alice_locked_row ∧
  login (march_2024 + 329) (march_2024 + 329) (credentials "alice" "secret") locked_world
    = Return (redirect "/",
              World (db locked_world)
                    (Session None (flashes (sess locked_world) ++ [AccountLockedTryLater]))).
Proof. split; vm_compute; reflexivity. Qed.

(** ** Instances of the theorems *)

Lemma ungated_handlers_raise_witness :
  delete 1 init_world = Raise (KeyError "user") ∧
  set_budget (post_json (Some "2024-01") (Some (PyNum (Qc_of_Z 100)))) init_world
    = Raise (KeyError "user") ∧
  clear_month (post_json (Some "2024-01") (Some (PyNum (Qc_of_Z 100)))) init_world
    = Raise (KeyError "user") ∧
  clear_all init_world = Raise (KeyError "user").
Proof.
  apply (ungated_handlers_raise init_world 1
           (post_json (Some "2024-01") (Some (PyNum (Qc_of_Z 100))))).
  reflexivity.
Defined.

Lemma lockout_after_threshold_witness :
  ∃ w3,
    select_user "alice" (db w3) = Some alice_locked_row ∧
    ∀ now now' p,
      now < march_2024 + 30 + 300 →
      login now now' (credentials "alice" p) w3 =
        Return (redirect "/",
                World (db w3)
                      (Session (session_user (sess w3))
                               (flashes (sess w3) ++ [AccountLockedTryLater]))).
Proof.
  destruct (lockout_after_threshold signed_up_world "alice" alice_row "a" "b" "c"
              (march_2024 + 10) (march_2024 + 10)
              (march_2024 + 20) (march_2024 + 20)
              (march_2024 + 30) (march_2024 + 30))
    as (w1 & w2 & w3 & _ & _ & _ & Hrow & _ & Hwindow & _); [reflexivity..|].
  exists w3. split; [exact Hrow|exact Hwindow].
Defined.

(** The locked account of the scenario, once its five minutes are over:
    the right password finds counter 3 and the lock, and leaves counter 0
    and no lock. *)
Lemma login_success_resets_witness :
  select_user "alice" (db locked_world) = Some alice_locked_row ∧
  ∃ w',
    login (march_2024 + 330) (march_2024 + 330) (credentials "alice" "secret") locked_world
      = Return (redirect "/dashboard", w') ∧
    select_user "alice" (db w') = Some alice_row.
Proof.
  split; [reflexivity|].
  destruct (login_success_resets (march_2024 + 330) (march_2024 + 330)
              (credentials "alice" "secret") locked_world
              "alice" "secret" alice_locked_row)
    as (w' & Hret & _ & Hrow & _);
    [reflexivity..| |reflexivity|].
  - intros lock [= <-]. by_evaluation.
  - exists w'. split; [exact Hret|exact Hrow].
Defined.

Lemma set_budget_single_row_witness :
  ∃ w',
    set_budgets
      [post_json (Some "2024-01") (Some (PyNum (Qc_of_Z 100)));
       post_json (Some "2024-02") (Some (PyStr "70"));
       post_json (Some "2024-01") (Some (PyNum (Qc_of_Z 250)))] alice_world
      = Return ([jsonify_status_ok; jsonify_status_ok; jsonify_status_ok], w') ∧
    length (List.filter (λ b, bool_decide (budget_user b = "alice") &&
                              bool_decide (month b = "2024-01"))
                        (budgets (db w'))) = 1%nat.
Proof.
  destruct (set_budget_single_row alice_world "alice" "2024-01"
              [post_json (Some "2024-01") (Some (PyNum (Qc_of_Z 100)));
               post_json (Some "2024-02") (Some (PyStr "70"));
               post_json (Some "2024-01") (Some (PyNum (Qc_of_Z 250)))])
    as (w' & Hret & Hone & _).
  - reflexivity.
  - repeat constructor; try (by eexists);
      (eexists; split; [reflexivity|by_evaluation]).
  - eexists. split; [apply list_elem_of_here|reflexivity].
  - exists w'. split; [exact Hret|exact Hone].
Defined.


(** The sums of the rows of alice in exact arithmetic, through the
    statement of C7. *)
Lemma category_totals_sum_exact_witness :
  sum_values_with 0%Qc Qcplus
    (group_with 0%Qc Qcplus
       (map (λ e, (category e, parse_float_safe (amount e))) (expenses (db alice_world))))
  = sum_with 0%Qc Qcplus
      (map (λ e, parse_float_safe (amount e)) (expenses (db alice_world))).
Proof.
  exact (proj1 (proj2 (category_totals_sum_exact 0%Qc Qcplus parse_float_safe
                         (expenses (db alice_world)))) _ _ _).
Defined.

Lemma monthly_totals_ignore_filter_witness :
  ∃ ctx,
    dashboard march_2024 (get_args [("month", "2024-01")]) alice_world
      = Return (render_dashboard ctx, alice_world) ∧
    ctx_total ctx = Qc_of_Z 150 ∧
    ctx_monthly_totals ctx !! "2024-02" = Some (Qc_of_Z 900).
Proof.
  destruct (monthly_totals_ignore_filter alice_world "alice" march_2024
              (get_args [("month", "2024-01")]) eq_refl)
    as [[(ctx & Hd & _ & Htotal & _ & Hmonthly)|(Hraise & _)] _].
  - exists ctx. split; [exact Hd|]. split.
    + rewrite Htotal. by_evaluation.
    + rewrite (Hmonthly "2024-02"). by_evaluation.
  - vm_compute in Hraise. discriminate Hraise.
Defined.

(** The scenario of the specification: with a budget of 100 for January
    and expenses of 150, the alert of the January page is on. *)
Lemma budget_alert_iff_witness :
  ∃ ctx,
    dashboard march_2024 (get_args [("month", "2024-01")]) alice_budget_world
      = Return (render_dashboard ctx, alice_budget_world) ∧
    ctx_budget_alert ctx = true.
Proof.
  destruct (budget_alert_iff alice_budget_world "alice" march_2024
              (get_args [("month", "2024-01")]) eq_refl)
    as [(ctx & Hd & Hiff)|(Hraise & _)].
  - exists ctx. split; [exact Hd|]. apply Hiff.
    exists (BudgetRow 1 "alice" "2024-01" (PyNum (Qc_of_Z 100))), (Qc_of_Z 100).
    split; [vm_compute; reflexivity|]. split; [reflexivity|]. split; [done|].
    by_evaluation.
  - vm_compute in Hraise. discriminate Hraise.
Defined.

Lemma add_parses_edit_binds_text_witness :
  (∃ w1,
      add (expense_form "abc" "food" "2024-01-05") alice_world
        = Return (redirect "/dashboard", w1) ∧
      last (expenses (db w1)) =
        Some (ExpenseRow 4 "alice" (PyNum 0%Qc) "food" "2024-01-05")) ∧
  (∃ w2,
      edit 1 (expense_form "abc" "food" "2024-01-05") alice_world
        = Return (redirect "/dashboard", w2) ∧
      head (expenses (db w2)) =
        Some (ExpenseRow 1 "alice" (PyStr "abc") "food" "2024-01-05")).
Proof.
  destruct (add_parses_edit_binds_text alice_world "alice" 1
              (expense_form "abc" "food" "2024-01-05") "abc" "food" "2024-01-05")
    as [(w1 & Hadd & Hrows1) (w2 & Hedit & Hrows2)]; [reflexivity..|by_evaluation|].
  split.
  - exists w1. split; [exact Hadd|]. rewrite Hrows1. by rewrite last_snoc.
  - exists w2. split; [exact Hedit|]. rewrite Hrows2. reflexivity.
Defined.

Lemma expired_lock_relocks_witness :
  MAX_LOGIN_ATTEMPTS ≤ attempts alice_locked_row ∧
  select_user "alice"
    (db (after (login (march_2024 + 330) (march_2024 + 331)
                      (credentials "alice" "d")) locked_world))
    = Some (UserRow 1 "alice" "salt$secret" 4 (Some (march_2024 + 331))).
Proof.
  destruct (expired_lock_relocks locked_world "alice" alice_locked_row
              (march_2024 + 30) (march_2024 + 330) (march_2024 + 331) "d")
    as (Hge & Hlogin & Hrow).
  - exists [ (Signup "salt", credentials "alice" "secret");
             (Login (march_2024 + 10) (march_2024 + 10), credentials "alice" "a");
             (Login (march_2024 + 20) (march_2024 + 20), credentials "alice" "b");
             (Login (march_2024 + 30) (march_2024 + 30), credentials "alice" "c") ].
    reflexivity.
  - reflexivity.
  - reflexivity.
  - reflexivity.
  - reflexivity.
  - split; [exact Hge|]. unfold after. rewrite Hlogin. exact Hrow.
Defined.

(** ** Where the alert departs from the words of the specification *)

(** C3 as the specification words it fails on two runs.  With a budget of
    0 for January and 100 spent, the specification's alert holds (a row
    exists and 100 >= 0) while the page shows none: a zero amount is
    false in [budget and ...].  With a budget of 1000 for March, nothing
    spent in March and 1050 spent before, the unfiltered page of March
    shows the alert, since its total is that of all rows, while the
    specification's alert, on the expenses of March, does not hold. *)
Lemma budget_alert_spec_counterexample :
  (∃ ctx,
      dashboard march_2024 (get_args [("month", "2024-01")]) alice_zero_budget_world
        = Return (render_dashboard ctx, alice_zero_budget_world) ∧
      ¬ (ctx_budget_alert ctx = true ↔
         spec_budget_alert march_2024 (get_args [("month", "2024-01")]) "alice"
                           (db alice_zero_budget_world))) ∧
  (∃ ctx,
      dashboard march_2024 (get_args []) alice_march_budget_world
        = Return (render_dashboard ctx, alice_march_budget_world) ∧
      ¬ (ctx_budget_alert ctx = true ↔
         spec_budget_alert march_2024 (get_args []) "alice"
                           (db alice_march_budget_world))).
Proof.
  split.
  - eexists. split; [vm_compute; reflexivity|]. cbn [ctx_budget_alert].
    intros [_ Hspec]. enough (false = true) by done. apply Hspec.
    exists (BudgetRow 1 "alice" "2024-01" (PyNum (Qc_of_Z 0))), (Qc_of_Z 0).
    split; [vm_compute; reflexivity|]. split; [reflexivity|]. by_evaluation.
  - eexists. split; [vm_compute; reflexivity|]. cbn [ctx_budget_alert].
    intros [Hspec _]. destruct (Hspec eq_refl) as (row & b & Hsel & Hamt & Hle).
    vm_compute in Hsel. injection Hsel as <-.
    cbn in Hamt. injection Hamt as <-.
    apply (bool_decide_pack _) in Hle. vm_compute in Hle. exact Hle.
Qed.

(** ** Where the sums depart from the words of the specification *)

(** C7 as the specification words it fails in the arithmetic of the
    program.  Take three expenses of one identity, in the order they
    were added: 1 under "a", 1 under "b", 1e16 under "a".  The [sum] of
    the dashboard adds 1 + 1 and then 1e16, which is 10000000000000002
    without rounding (the compensated [sum] of recent CPython returns
    the same).  The category loop adds 1 + 1e16 for "a", which binary64
    rounds to 1e16, and keeps 1 for "b"; these two values add up to 1e16
    in either order, and to 1e16 + 1 without rounding: not to the
    total. *)
Lemma category_totals_sum_counterexample :
  sum_with 0%float PrimFloat.add (map snd rounding_rows) = 10000000000000002%float ∧
  group_with 0%float PrimFloat.add rounding_rows !! "a" = Some 1e16%float ∧
  group_with 0%float PrimFloat.add rounding_rows !! "b" = Some 1%float ∧
  sum_values_with 0%float PrimFloat.add (group_with 0%float PrimFloat.add rounding_rows)
    ≠ sum_with 0%float PrimFloat.add (map snd rounding_rows) ∧
  PrimFloat.add 1e16 1 ≠ 10000000000000002%float ∧
  PrimFloat.add 1 1e16 ≠ 10000000000000002%float.
Proof.
  repeat split; try (vm_compute; reflexivity);
    intros E;
    apply (f_equal (λ v, PrimFloat.eqb v 10000000000000002%float)) in E;
    vm_compute in E; discriminate E.
Qed.

(** ** Where an edit departs from the words of the specification *)

(** C9 as the specification words it fails on the first expense of
    alice: an edit that submits the amount text "80" leaves the number
    80 in the cell, not the text.  The handler binds the text, and the
    column, declared REAL, converts a text that is a numeric literal. *)
Lemma edit_raw_text_counterexample :
  ∃ w2,
    edit 1 (expense_form "80" "food" "2024-01-05") alice_world
      = Return (redirect "/dashboard", w2) ∧
    head (expenses (db w2)) =
      Some (ExpenseRow 1 "alice" (PyNum (Qc_of_Z 80)) "food" "2024-01-05") ∧
    PyNum (Qc_of_Z 80) ≠ PyStr "80".
Proof.
  eexists. split; [vm_compute; reflexivity|]. split; [by_evaluation|done].
Qed.

(** ** Instances of the further properties *)

Lemma alice_world_reachable : reachable alice_world.
Proof. exists alice_calls. reflexivity. Qed.

Lemma alice_budget_world_reachable : reachable alice_budget_world.
Proof. exists alice_budget_calls. reflexivity. Qed.

Lemma bob_world_reachable : reachable bob_world.
Proof. exists bob_calls. reflexivity. Qed.

Lemma signed_up_world_reachable : reachable signed_up_world.
Proof. exists [(Signup "salt", credentials "alice" "secret")]. reflexivity. Qed.

Lemma reachable_ids_unique_witness :
  NoDup (map expense_id (expenses (db bob_world))) ∧
  ∀ e, e ∈ expenses (db bob_world) → expense_id e ≠ 4.
Proof.
  destruct (reachable_ids_unique bob_world bob_world_reachable)
    as (_ & _ & Hnd & _ & Hfresh).
  split; [exact Hnd|exact Hfresh].
Defined.

Lemma reachable_owners_have_accounts_witness :
  is_Some (select_user "bob" (db bob_world)) ∧
  ∀ e, e ∈ expenses (db bob_world) → is_Some (select_user (expense_user e) (db bob_world)).
Proof.
  destruct (reachable_owners_have_accounts bob_world bob_world_reachable)
    as (_ & Hs & He & _).
  split; [by apply Hs|exact He].
Defined.

Lemma reachable_below_threshold_unlocked_witness :
  0 ≤ attempts alice_row ∧
  lock_time alice_row = None ∧
  lock_active march_2024 alice_row = false.
Proof.
  destruct (reachable_below_threshold_unlocked signed_up_world "alice" alice_row
              signed_up_world_reachable eq_refl) as [Hnonneg Hun].
  split; [exact Hnonneg|].
  destruct (Hun eq_refl) as [Hlock Hactive].
  split; [exact Hlock|apply Hactive].
Defined.

Lemma reachable_one_budget_per_pair_witness :
  (budget_count "alice" "2024-01" (db alice_budget_world) ≤ 1)%nat.
Proof.
  apply (reachable_one_budget_per_pair alice_budget_world "alice" "2024-01").
  exact alice_budget_world_reachable.
Defined.

Lemma signup_twice_keeps_first_witness :
  ∃ w1 w2,
    signup "salt" (credentials "alice" "secret") init_world = Return (redirect "/", w1) ∧
    signup "sugar" (credentials "alice" "other") w1
      = Return (render_template "signup.html", w2) ∧
    select_user "alice" (db w2) = Some alice_row.
Proof.
  destruct (signup_twice_keeps_first init_world "salt" "sugar" "alice" "secret" "other")
    as (w1 & w2 & H1 & H2 & _ & _ & Hrow); [reflexivity|].
  exists w1, w2. split; [exact H1|]. split; [exact H2|exact Hrow].
Defined.

Lemma signup_then_login_witness :
  ∃ w1 w2,
    signup "salt" (credentials "alice" "secret") init_world = Return (redirect "/", w1) ∧
    login march_2024 march_2024 (credentials "alice" "secret") w1
      = Return (redirect "/dashboard", w2) ∧
    session_user (sess w2) = Some "alice".
Proof.
  apply (signup_then_login init_world "salt" "alice" "secret" march_2024 march_2024);
    reflexivity.
Defined.

Lemma login_binds_session_only_on_success_witness :
  ∃ u p user,
    select_user u (db signed_up_world) = Some user ∧
    check_password_hash (password user) p = true.
Proof.
  destruct (login_binds_session_only_on_success march_2024 march_2024
              (credentials "alice" "secret") signed_up_world
              (redirect "/dashboard")
              (after (login march_2024 march_2024 (credentials "alice" "secret"))
                     signed_up_world))
    as (_ & u & p & user & _ & _ & Hsel & _ & Hchk & _).
  - vm_compute. reflexivity.
  - vm_compute. discriminate.
  - exists u, p, user. split; [exact Hsel|exact Hchk].
Defined.

Lemma login_touches_one_account_witness :
  select_user "bob"
    (db (after (login march_2024 march_2024 (credentials "alice" "wrong")) bob_world))
  = select_user "bob" (db bob_world).
Proof.
  apply (login_touches_one_account march_2024 march_2024
           (credentials "alice" "wrong") bob_world "bob").
  rewrite credentials_username. intros [=].
Defined.

Lemma missing_form_field_raises_witness :
  add (post_form [("category", "food"); ("date", "2024-03-01")]) alice_world
    = Raise (BadRequestKeyError "amount").
Proof.
  destruct (missing_form_field_raises alice_world "alice" 1
              (post_form [("category", "food"); ("date", "2024-03-01")])
              eq_refl eq_refl) as (Hamount & _).
  exact (proj1 (Hamount eq_refl)).
Defined.

Lemma add_appends_one_row_witness :
  ∃ w',
    add (expense_form "25" "fun" "2024-03-02") alice_world
      = Return (redirect "/dashboard", w') ∧
    select_expenses "alice" None (db w') =
      select_expenses "alice" None (db alice_world) ++
      [ExpenseRow 4 "alice" (PyNum (Qc_of_Z 25)) "fun" "2024-03-02"].
Proof.
  destruct (add_appends_one_row alice_world "alice"
              (expense_form "25" "fun" "2024-03-02") "25" "fun" "2024-03-02")
    as (w' & Hret & Hrows & _); [reflexivity..|].
  exists w'. split; [exact Hret|exact Hrows].
Defined.

Lemma add_then_delete_restores_witness :
  ∃ w1 w2,
    add (expense_form "25" "fun" "2024-03-02") alice_world
      = Return (redirect "/dashboard", w1) ∧
    delete 4 w1 = Return (redirect "/dashboard", w2) ∧
    expenses (db w2) = expenses (db alice_world).
Proof.
  destruct (add_then_delete_restores alice_world "alice"
              (expense_form "25" "fun" "2024-03-02") "25" "fun" "2024-03-02"
              alice_world_reachable)
    as (w1 & w2 & Hadd & Hdel & Hrows & _); [reflexivity..|].
  exists w1, w2. split; [exact Hadd|]. split; [exact Hdel|exact Hrows].
Defined.

Lemma delete_removes_only_own_row_witness :
  ∃ w',
    delete 2 alice_world = Return (redirect "/dashboard", w') ∧
    delete 2 w' = Return (redirect "/dashboard", w').
Proof.
  destruct (delete_removes_only_own_row alice_world "alice" 2 eq_refl)
    as (w' & Hdel & _ & _ & _ & _ & Hagain); [by_evaluation|].
  exists w'. split; [exact Hdel|exact Hagain].
Defined.

Lemma edit_custom_category_overrides_witness :
  db (after (edit 1 (post_form [("amount", "80"); ("date", "2024-01-06");
                                ("custom_category", "gift")])) alice_world) =
    update_expense (PyStr "80") "gift" "2024-01-06" 1 "alice" (db alice_world).
Proof.
  destruct (edit_custom_category_overrides alice_world "alice" 1
              (post_form [("amount", "80"); ("date", "2024-01-06");
                          ("custom_category", "gift")]) "80" "2024-01-06")
    as (Hcustom & _); [reflexivity..|].
  apply Hcustom; [reflexivity|discriminate].
Defined.

Lemma clear_all_removes_only_own_witness :
  ∃ w',
    clear_all bob_world = Return (jsonify_done, w') ∧
    select_expenses "alice" None (db w') = select_expenses "alice" None (db bob_world).
Proof.
  destruct (clear_all_removes_only_own bob_world "bob" eq_refl)
    as (w' & Hret & _ & Hothers & _).
  exists w'. split; [exact Hret|]. apply Hothers. discriminate.
Defined.

Lemma clear_month_removes_only_that_month_witness :
  ∃ w',
    clear_month (post_json (Some "2024-01") None) alice_world
      = Return (jsonify_status_ok, w') ∧
    select_expenses "alice" (Some "2024-01") (db w') = [] ∧
    select_expenses "alice" (Some "2024-02") (db w') =
      select_expenses "alice" (Some "2024-02") (db alice_world).
Proof.
  destruct (clear_month_removes_only_that_month alice_world "alice"
              (post_json (Some "2024-01") None) "2024-01" eq_refl eq_refl)
    as (w' & Hret & Hgone & Hkept & _).
  exists w'. split; [exact Hret|]. split; [exact Hgone|].
  apply Hkept. discriminate.
Defined.



Lemma dashboard_rows_owned_witness :
  ∃ ctx w',
    dashboard march_2024 january_page bob_world = Return (render_dashboard ctx, w') ∧
    ctx_username ctx = "bob" ∧
    ∀ e, e ∈ ctx_expenses ctx → expense_user e = "bob".
Proof.
  assert (∃ ctx w', dashboard march_2024 january_page bob_world
                    = Return (render_dashboard ctx, w')) as (ctx & w' & Hd).
  { do 2 eexists. vm_compute. reflexivity. }
  exists ctx, w'. split; [exact Hd|].
  destruct (dashboard_rows_owned bob_world "bob" march_2024 january_page ctx w'
              eq_refl Hd) as (Hrows & _ & Hname & _).
  split; [exact Hname|]. intros e He. apply Hrows in He. apply He.
Defined.

Lemma empty_month_is_no_filter_witness :
  export_pdf (get_args [("month", "")]) alice_world = export_pdf (get_args []) alice_world.
Proof.
  exact (proj2 (empty_month_is_no_filter alice_world march_2024
                  (get_args [("month", "")]) (get_args []) eq_refl eq_refl)).
Defined.

Lemma export_matches_dashboard_witness :
  ∃ report,
    export_pdf january_page alice_world = Return (send_file report, alice_world) ∧
    pdf_title report = "2024-01".
Proof.
  destruct (export_matches_dashboard alice_world "alice" january_page eq_refl)
    as (report & Hret & Htitle & _).
  exists report. split; [exact Hret|exact Htitle].
Defined.

Lemma report_canvas_draws_report_witness :
  map snd (strings_at 150 (export_canvas "alice" january_page (db alice_world)))
  = [StrText "food"; StrText "food"].
Proof.
  assert (∃ report, export_pdf january_page alice_world
                    = Return (send_file report, alice_world)) as (report & Hr).
  { eexists. vm_compute. reflexivity. }
  destruct (report_canvas_draws_report alice_world "alice" january_page report
              eq_refl Hr) as (_ & Hcat & _).
  rewrite Hcat. revert Hr. unfold export_pdf. run_handler. cbn.
  intros [= <-]. reflexivity.
Defined.

Lemma report_texts_on_page_witness :
  Forall (λ y, Qc_of_Z 10 ≤ y ∧ y ≤ A4_height - Qc_of_Z 40)%Qc
         (heights (draw_report A4_height "All Data" (expenses (db alice_world)))).
Proof.
  destruct (report_texts_on_page A4_height "All Data" (expenses (db alice_world)))
    as (Hall & _).
  - by_evaluation.
  - exact Hall.
Defined.
